(** * BMI323 example: alternate configuration driven by any-motion / no-motion

    A shallow embedding of
    [examples/mcu_alternate_config_any_no_motion/mcu_alternate_config_any_no_motion.c]
    and the properties of its set-up sequence and of its acquisition loop.

    The example is an open program: it calls the sensor API ([bmi323_*]),
    the COINES platform ([coines_*]) and the C library, and two interrupt
    callbacks write its flags.  The embedding makes both sides explicit:

    - what the program does is a trace of [event]s (the calls it makes, with
      their arguments, and its stores to the two volatile flags);
    - what the environment answers is an argument of the model: the result
      code of every call, what the call leaves in its out-parameter, and
      the interrupt edges that arrive while the loop runs. *)

From Stdlib Require Import ZArith Lia.
From stdpp Require Import base numbers list strings gmap.

Local Open Scope Z_scope.

(** ** Constants of the headers

    [bmi323.h], [coines.h] and [stdlib.h] are not part of the example's
    source.  The macros the example uses are the fields of a class, so every
    theorem below holds whatever values the headers give them. *)

Class Headers := {
  BMI323_OK : Z;
  COINES_E_FAILURE : Z;
  EXIT_SUCCESS : Z;
  (* sensor and feature types *)
  BMI323_ACCEL : Z;
  BMI323_GYRO : Z;
  BMI323_ANY_MOTION : Z;
  BMI323_NO_MOTION : Z;
  BMI323_ALT_AUTO_CONFIG : Z;
  BMI323_ALT_ACCEL : Z;
  BMI323_ALT_GYRO : Z;
  (* configuration values *)
  BMI323_ACC_MODE_NORMAL : Z;
  BMI323_ACC_ODR_100HZ : Z;
  BMI323_ACC_ODR_400HZ : Z;
  BMI323_ACC_AVG4 : Z;
  BMI323_GYR_MODE_NORMAL : Z;
  BMI323_GYR_ODR_100HZ : Z;
  BMI323_GYR_ODR_400HZ : Z;
  BMI323_GYR_AVG4 : Z;
  BMI323_ALT_NO_MOTION : Z;
  BMI323_ALT_ANY_MOTION : Z;
  BMI323_ALT_ACC_ENABLE : Z;
  BMI323_ALT_GYR_ENABLE : Z;
  BMI323_ALT_CONF_RESET_OFF : Z;
  (* interface, pins and interrupt lines *)
  BMI323_SPI_INTF : Z;
  BMI323_ENABLE : Z;
  BMI323_INT1 : Z;
  BMI323_INT2 : Z;
  BMI323_INT_OUTPUT_ENABLE : Z;
  BMI323_INT_ACTIVE_HIGH : Z;
  COINES_SHUTTLE_PIN_20 : Z;
  COINES_SHUTTLE_PIN_21 : Z;
  COINES_PIN_INTERRUPT_FALLING_EDGE : Z;
  COINES_COMM_INTF_USB : Z;
  (* bits of the two interrupt status words *)
  BMI323_INT_STATUS_ACC_DRDY : Z;
  BMI323_INT_STATUS_GYR_DRDY : Z;
  BMI323_INT_STATUS_ANY_MOTION : Z;
  BMI323_INT_STATUS_NO_MOTION : Z
}.

(** ** Data *)

(** A structure whose declaration is in a missing header: a finite map from
    the path of a field, as the source writes it, to its value.  A field
    that was never written reads as 0, as after the initialiser [{ 0 }]. *)
Abbreviation cstruct := (gmap string Z).


(** [struct bmi323_sens_config]: a type tag and the union [cfg]. *)
Record bmi323_sens_config := SensConfig {
  cfg_type : Z;
  cfg : cstruct
}.

(** [config[i].cfg.f = v] *)
Definition cfg_assign (i : nat) (f : string) (v : Z)
    (config : list bmi323_sens_config) : list bmi323_sens_config :=
  alter (fun c => SensConfig (cfg_type c) (<[f := v]> (cfg c))) i config.

(** [config[i].type = t] *)
Definition type_assign (i : nat) (t : Z)
    (config : list bmi323_sens_config) : list bmi323_sens_config :=
  alter (fun c => SensConfig t (cfg c)) i config.

(** One accel or gyro sample: the members the example prints. *)
Record sample := Sample {
  x : Z;
  y : Z;
  z : Z;
  sens_time : Z
}.

(** [struct bmi323_sensor_data] *)
Record bmi323_sensor_data := SensorData {
  sd_type : Z;
  sens_data : sample
}.

(** [struct bmi323_alt_status] *)
Record bmi323_alt_status := AltStatus {
  alt_accel_status : Z;
  alt_gyro_status : Z
}.

(** The callbacks handed to [coines_attach_interrupt]. *)
Inductive callback := Drdy_int_callback | Feat_int_callback.

(** ** What the program does: events

    A call is recorded with the arguments that matter to the example (the
    pointer to [dev] is left out).  Format strings are kept as the source
    spells them, escapes included. *)

Inductive event :=
  | Call_bmi323_interface_init (intf : Z)
  | Call_coines_delay_msec (ms : Z)
  | Call_bmi323_init
  | Call_bmi323_error_codes_print_result (api_name : string) (rslt : Z)
  | Call_printf (format : string) (args : list Z)
  | Call_exit (status : Z)
  | Call_bmi323_get_sensor_config (config : list bmi323_sens_config) (n : Z)
  | Call_bmi323_set_sensor_config (config : list bmi323_sens_config) (n : Z)
  | Call_bmi323_alternate_config_ctrl (config_en : Z) (alt_rst_conf : Z)
  | Call_bmi323_select_sensor (feature : cstruct)
  | Call_bmi323_get_int_pin_config
  | Call_bmi323_set_int_pin_config (int_cfg : cstruct)
  | Call_bmi323_map_interrupt (map_int : cstruct)
  | Call_coines_attach_interrupt (pin : Z) (cb : callback) (mode : Z)
  | Store_drdy_int_status (v : bool)
  | Store_feat_int_status (v : bool)
  | Call_bmi323_get_int1_status
  | Call_bmi323_get_int2_status
  | Call_bmi323_get_sensor_data (type : Z) (n : Z)
  | Call_bmi323_read_alternate_status
  | Call_coines_close_comm_intf (intf : Z).

(** ** What the environment answers *)

(** The answer to a call with an out-parameter: the result code, and the
    value the callee stored through the pointer, if it stored one. *)
Record reply (A : Type) := Reply {
  code : Z;
  out : option A
}.
Arguments Reply {A} code out.
Arguments code {A} r.
Arguments out {A} r.

(** The content of the out-parameter after the call. *)
Definition stored {A : Type} (old : A) (r : reply A) : A :=
  default old (out r).

(** ** The program monad: a trace, and how the run stands *)

Inductive result (A : Type) :=
  | Done (a : A)          (* ran to its end with a value *)
  | Exit (status : Z)     (* called exit *)
  | Running.              (* still in the loop when the recorded
                             environment ends *)
Arguments Done {A} a.
Arguments Exit {A} status.
Arguments Running {A}.

Record M (A : Type) := Run {
  trace : list event;
  outcome : result A
}.
Arguments Run {A} trace outcome.
Arguments trace {A} m.
Arguments outcome {A} m.

#[export] Instance M_ret : MRet M := fun A a => Run [] (Done a).

#[export] Instance M_bind : MBind M := fun A B f m =>
  match m with
  | Run t (Done a) => match f a with Run t' r => Run (t ++ t') r end
  | Run t (Exit st) => Run t (Exit st)
  | Run t Running => Run t Running
  end.

Definition emit (e : event) : M unit := Run [e] (Done tt).

(** A call that only returns a result code. *)
Definition call (e : event) (rslt : Z) : M Z := Run [e] (Done rslt).

(** A call that also writes through a pointer: the result code and the
    content of the pointee afterwards. *)
Definition call_out {A : Type} (e : event) (old : A) (r : reply A) : M (Z * A) :=
  Run [e] (Done (code r, stored old r)).

Definition printf (format : string) (args : list Z) : M unit :=
  emit (Call_printf format args).

Definition bmi323_error_codes_print_result (api_name : string) (rslt : Z) : M unit :=
  emit (Call_bmi323_error_codes_print_result api_name rslt).

Definition exit {A : Type} (status : Z) : M A :=
  Run [Call_exit status] (Exit status).

(** ** The sensor API and the platform, as the example calls them

    Each wrapper records the call and hands back what the environment
    answered.  The device structure [dev] is only passed on to the API; of
    the global [dev] the model keeps the one member the example reads,
    [dev.chip_id], which starts at 0 and which [bmi323_interface_init] and
    [bmi323_init] may fill. *)

Definition bmi323_interface_init (chip_id : Z) (intf : Z) (r : reply Z) : M (Z * Z) :=
  call_out (Call_bmi323_interface_init intf) chip_id r.

Definition coines_delay_msec (ms : Z) : M unit :=
  emit (Call_coines_delay_msec ms).

Definition bmi323_init (chip_id : Z) (r : reply Z) : M (Z * Z) :=
  call_out Call_bmi323_init chip_id r.

(** The callee fills the union of the first [n] slots and leaves their type
    tags as the caller set them. *)
Definition bmi323_get_sensor_config (config : list bmi323_sens_config) (n : Z)
    (r : reply (nat -> cstruct)) : M (Z * list bmi323_sens_config) :=
  let fill (d : nat -> cstruct) :=
    imap (fun i c => if decide (Z.of_nat i < n)
                     then SensConfig (cfg_type c) (d i) else c) config in
  Run [Call_bmi323_get_sensor_config config n]
      (Done (code r, default config (fill <$> out r))).

Definition bmi323_set_sensor_config (config : list bmi323_sens_config) (n : Z)
    (rslt : Z) : M Z :=
  call (Call_bmi323_set_sensor_config config n) rslt.

Definition bmi323_alternate_config_ctrl (config_en alt_rst_conf : Z) (rslt : Z) : M Z :=
  call (Call_bmi323_alternate_config_ctrl config_en alt_rst_conf) rslt.

Definition bmi323_select_sensor (feature : cstruct) (rslt : Z) : M Z :=
  call (Call_bmi323_select_sensor feature) rslt.

Definition bmi323_get_int_pin_config (int_cfg : cstruct) (r : reply cstruct)
    : M (Z * cstruct) :=
  call_out Call_bmi323_get_int_pin_config int_cfg r.

Definition bmi323_set_int_pin_config (int_cfg : cstruct) (rslt : Z) : M Z :=
  call (Call_bmi323_set_int_pin_config int_cfg) rslt.

Definition bmi323_map_interrupt (map_int : cstruct) (rslt : Z) : M Z :=
  call (Call_bmi323_map_interrupt map_int) rslt.

Definition coines_attach_interrupt (pin : Z) (cb : callback) (mode : Z) : M unit :=
  emit (Call_coines_attach_interrupt pin cb mode).

Definition bmi323_get_int1_status (int_status : Z) (r : reply Z) : M (Z * Z) :=
  call_out Call_bmi323_get_int1_status int_status r.

Definition bmi323_get_int2_status (int_status : Z) (r : reply Z) : M (Z * Z) :=
  call_out Call_bmi323_get_int2_status int_status r.

Definition bmi323_get_sensor_data (data : bmi323_sensor_data) (n : Z)
    (r : reply sample) : M (Z * bmi323_sensor_data) :=
  Run [Call_bmi323_get_sensor_data (sd_type data) n]
      (Done (code r, SensorData (sd_type data) (stored (sens_data data) r))).

Definition bmi323_read_alternate_status (alt_status : bmi323_alt_status)
    (r : reply bmi323_alt_status) : M (Z * bmi323_alt_status) :=
  call_out Call_bmi323_read_alternate_status alt_status r.

Definition coines_close_comm_intf (intf : Z) : M unit :=
  emit (Call_coines_close_comm_intf intf).

(** ** The environment of one run *)

(** Answers to the calls of the set-up phase, and the indeterminate first
    content of the two locals that [main] declares without an initialiser. *)
Record setup_env := SetupEnv {
  indeterminate_drdy_int : Z;
  indeterminate_feat_int : Z;
  r_interface_init : reply Z;
  r_init : reply Z;
  r_get_sensor_config : reply (nat -> cstruct);
  r_set_sensor_config : Z;
  r_alternate_config_ctrl : Z;
  r_select_sensor : Z;
  r_get_int_pin_config : reply cstruct;
  r_set_int_pin_config_1 : Z;
  r_set_int_pin_config_2 : Z;
  r_map_interrupt : Z
}.

(** Falling edges on the two interrupt pins. *)
Record edges := Edges {
  drdy_edge : bool;
  feat_edge : bool
}.

(** The environment during one pass through the loop body.  An interrupt
    can arrive between any two statements.  The loop reads each flag at one
    place only, its test, so the edges are recorded by the test that first
    sees them:
    - [irq_top]: the edges that arrive before the data-ready test of this
      pass, since the feature test of the pass before (since its store of 0
      to the feature flag, when it made one);
    - [irq_mid]: the edges that arrive after the data-ready test of this
      pass (after its store of 0 to the data-ready flag, when it made one)
      and before its feature test.
    An edge that arrives between a test that found its flag set and the
    store of 0 that follows is not recorded: the flag is set already and
    the store clears it, so that edge changes nothing; it is coalesced with
    the one being served.  With this the variables are the ones of the code
    at both tests of every pass; the variables a pass returns are those at
    its end as long as no edge has arrived since its feature test, the
    later ones being the [irq_top] of the next pass.  The answers of the
    calls that a pass does not make are not used. *)
Record iter_env := IterEnv {
  irq_top : edges;
  r_get_int1_status : reply Z;
  r_get_accel : reply sample;
  r_get_gyro : reply sample;
  irq_mid : edges;
  r_get_int2_status : reply Z;
  r_alt_status_any : reply bmi323_alt_status;
  r_alt_status_no : reply bmi323_alt_status
}.

(** ** Variables that live across the loop

    The two volatile globals and the locals of [main] that the loop uses. *)
Record vars := Vars {
  drdy_int_status : bool;
  feat_int_status : bool;
  rslt : Z;
  sensor_data0 : bmi323_sensor_data;
  sensor_data1 : bmi323_sensor_data;
  alt_status : bmi323_alt_status;
  drdy_int : Z;
  feat_int : Z;
  limit : Z;
  count : Z
}.

Definition set_drdy_int_status (v : bool) (s : vars) : vars :=
  Vars v (feat_int_status s) (rslt s) (sensor_data0 s) (sensor_data1 s)
       (alt_status s) (drdy_int s) (feat_int s) (limit s) (count s).

Definition set_feat_int_status (v : bool) (s : vars) : vars :=
  Vars (drdy_int_status s) v (rslt s) (sensor_data0 s) (sensor_data1 s)
       (alt_status s) (drdy_int s) (feat_int s) (limit s) (count s).

Definition set_rslt (v : Z) (s : vars) : vars :=
  Vars (drdy_int_status s) (feat_int_status s) v (sensor_data0 s) (sensor_data1 s)
       (alt_status s) (drdy_int s) (feat_int s) (limit s) (count s).

Definition set_sensor_data0 (v : bmi323_sensor_data) (s : vars) : vars :=
  Vars (drdy_int_status s) (feat_int_status s) (rslt s) v (sensor_data1 s)
       (alt_status s) (drdy_int s) (feat_int s) (limit s) (count s).

Definition set_sensor_data1 (v : bmi323_sensor_data) (s : vars) : vars :=
  Vars (drdy_int_status s) (feat_int_status s) (rslt s) (sensor_data0 s) v
       (alt_status s) (drdy_int s) (feat_int s) (limit s) (count s).

Definition set_alt_status (v : bmi323_alt_status) (s : vars) : vars :=
  Vars (drdy_int_status s) (feat_int_status s) (rslt s) (sensor_data0 s)
       (sensor_data1 s) v (drdy_int s) (feat_int s) (limit s) (count s).

Definition set_drdy_int (v : Z) (s : vars) : vars :=
  Vars (drdy_int_status s) (feat_int_status s) (rslt s) (sensor_data0 s)
       (sensor_data1 s) (alt_status s) v (feat_int s) (limit s) (count s).

Definition set_feat_int (v : Z) (s : vars) : vars :=
  Vars (drdy_int_status s) (feat_int_status s) (rslt s) (sensor_data0 s)
       (sensor_data1 s) (alt_status s) (drdy_int s) v (limit s) (count s).

Definition set_count (v : Z) (s : vars) : vars :=
  Vars (drdy_int_status s) (feat_int_status s) (rslt s) (sensor_data0 s)
       (sensor_data1 s) (alt_status s) (drdy_int s) (feat_int s) (limit s) v.

(** Arithmetic of [uint8_t]. *)
Definition uint8 (v : Z) : Z := v mod 256.

(** [if (w & mask)] *)
Definition bit_test (w mask : Z) : bool := negb (Z.land w mask =? 0).

(** A store of the loop to one of the volatile flags. *)
Definition store_drdy_int_status (v : bool) (s : vars) : M vars :=
  emit (Store_drdy_int_status v);; mret (set_drdy_int_status v s).

Definition store_feat_int_status (v : bool) (s : vars) : M vars :=
  emit (Store_feat_int_status v);; mret (set_feat_int_status v s).

(** ** The functions of the example *)

(** [drdy_int_callback] and [feat_int_callback] run in interrupt context. *)
Definition drdy_int_callback (s : vars) : vars := set_drdy_int_status true s.

Definition feat_int_callback (s : vars) : vars := set_feat_int_status true s.

(** The edges of one window, delivered to the callbacks. *)
Definition interrupts (e : edges) (s : vars) : vars :=
  let s := if drdy_edge e then drdy_int_callback s else s in
  if feat_edge e then feat_int_callback s else s.

Section Program.
Context `{Headers}.

(** [init_bmi323]: a failed initialisation ends the process. *)
Definition init_bmi323 (chip_id : Z) (e : setup_env) : M unit :=
  '(rslt, chip_id) ← bmi323_init chip_id (r_init e);
  bmi323_error_codes_print_result "bmi323_init" rslt;;
  if decide (rslt = BMI323_OK) then
    printf "BMI323 initialization success!\n" [];;
    printf "Chip ID - 0x%x\n" [chip_id]
  else
    printf "BMI323 initialization failure!\n" [];;
    exit COINES_E_FAILURE.

(** The array [config] of [set_feature_config] with its seven type tags. *)
Definition config_types : list bmi323_sens_config :=
  let config := replicate 7 (SensConfig 0 ∅) in
  let config := type_assign 0 BMI323_ACCEL config in
  let config := type_assign 1 BMI323_ANY_MOTION config in
  let config := type_assign 2 BMI323_NO_MOTION config in
  let config := type_assign 3 BMI323_ALT_AUTO_CONFIG config in
  let config := type_assign 4 BMI323_ALT_ACCEL config in
  let config := type_assign 5 BMI323_GYRO config in
  type_assign 6 BMI323_ALT_GYRO config.

(** The two assignments that give the alternate and the user switch their
    sources, whatever the sources are:
    [config[3].cfg.alt_auto_cfg.alt_switch_src_select = alt_src;
     config[3].cfg.alt_auto_cfg.user_switch_src_select = user_src;] *)
Definition assign_switch_sources (alt_src user_src : Z)
    (config : list bmi323_sens_config) : list bmi323_sens_config :=
  let config := cfg_assign 3 "alt_auto_cfg.alt_switch_src_select" alt_src config in
  cfg_assign 3 "alt_auto_cfg.user_switch_src_select" user_src config.

(** The assignments of [set_feature_config] between the batched read and
    the batched write. *)
Definition config_settings (config : list bmi323_sens_config)
    : list bmi323_sens_config :=
  let config := cfg_assign 0 "acc.acc_mode" BMI323_ACC_MODE_NORMAL config in
  let config := cfg_assign 0 "acc.odr" BMI323_ACC_ODR_100HZ config in
  let config := cfg_assign 1 "any_motion.threshold" 9 config in
  let config := cfg_assign 1 "any_motion.hysteresis" 9 config in
  let config := cfg_assign 1 "any_motion.duration" 9 config in
  let config := cfg_assign 2 "no_motion.threshold" 8 config in
  let config := cfg_assign 2 "no_motion.duration" 9 config in
  let config := cfg_assign 2 "no_motion.hysteresis" 9 config in
  let config := assign_switch_sources BMI323_ALT_NO_MOTION BMI323_ALT_ANY_MOTION
                                      config in
  let config := cfg_assign 4 "alt_acc.alt_acc_mode" BMI323_ACC_MODE_NORMAL config in
  let config := cfg_assign 4 "alt_acc.alt_acc_odr" BMI323_ACC_ODR_400HZ config in
  let config := cfg_assign 4 "alt_acc.alt_acc_avg_num" BMI323_ACC_AVG4 config in
  let config := cfg_assign 5 "gyr.gyr_mode" BMI323_GYR_MODE_NORMAL config in
  let config := cfg_assign 5 "gyr.odr" BMI323_GYR_ODR_100HZ config in
  let config := cfg_assign 6 "alt_gyr.alt_gyro_mode" BMI323_GYR_MODE_NORMAL config in
  let config := cfg_assign 6 "alt_gyr.alt_gyro_odr" BMI323_GYR_ODR_400HZ config in
  cfg_assign 6 "alt_gyr.alt_gyro_avg_num" BMI323_GYR_AVG4 config.

(** [set_feature_config]: read the seven slots, set them, write them back,
    switch the alternate configuration control on. *)
Definition set_feature_config (e : setup_env) : M unit :=
  let config := config_types in
  '(rslt, config) ← bmi323_get_sensor_config config 7 (r_get_sensor_config e);
  bmi323_error_codes_print_result "Get sensor config" rslt;;
  if decide (rslt = BMI323_OK) then
    let config := config_settings config in
    rslt ← bmi323_set_sensor_config config 7 (r_set_sensor_config e);
    bmi323_error_codes_print_result "Set sensor config" rslt;;
    if decide (rslt = BMI323_OK) then
      rslt ← bmi323_alternate_config_ctrl
               (Z.lor BMI323_ALT_ACC_ENABLE BMI323_ALT_GYR_ENABLE)
               BMI323_ALT_CONF_RESET_OFF
               (r_alternate_config_ctrl e);
      bmi323_error_codes_print_result "Enable alternate config control" rslt
    else mret tt
  else mret tt.

(** The accel part of the data-ready branch. *)
Definition report_accel (i : iter_env) (s : vars) : M vars :=
  if bit_test (drdy_int s) BMI323_INT_STATUS_ACC_DRDY then
    '(rslt, data) ← bmi323_get_sensor_data (sensor_data0 s) 1 (r_get_accel i);
    let s := set_sensor_data0 data (set_rslt rslt s) in
    bmi323_error_codes_print_result "Get sensor data" rslt;;
    printf "Accel-x = %d\tAccel-y = %d\tAccel-z = %d\tSensor time %ld\n"
           [x (sens_data (sensor_data0 s)); y (sens_data (sensor_data0 s));
            z (sens_data (sensor_data0 s)); sens_time (sens_data (sensor_data0 s))];;
    mret s
  else mret s.

(** The gyro part of the data-ready branch. *)
Definition report_gyro (i : iter_env) (s : vars) : M vars :=
  if bit_test (drdy_int s) BMI323_INT_STATUS_GYR_DRDY then
    '(rslt, data) ← bmi323_get_sensor_data (sensor_data1 s) 1 (r_get_gyro i);
    let s := set_sensor_data1 data (set_rslt rslt s) in
    bmi323_error_codes_print_result "Get sensor data" rslt;;
    printf "Gyro-x = %d\tGyro-y = %d\tGyro-z = %d\tSensor time %ld\n"
           [x (sens_data (sensor_data1 s)); y (sens_data (sensor_data1 s));
            z (sens_data (sensor_data1 s)); sens_time (sens_data (sensor_data1 s))];;
    mret s
  else mret s.

(** The data-ready branch: [if (drdy_int_status == 1) { ... }]. *)
Definition drdy_branch (i : iter_env) (s : vars) : M vars :=
  if drdy_int_status s then
    s ← store_drdy_int_status false s;
    '(rslt, int_status) ← bmi323_get_int1_status (drdy_int s) (r_get_int1_status i);
    let s := set_drdy_int int_status (set_rslt rslt s) in
    bmi323_error_codes_print_result "Read interrupt status" rslt;;
    s ← report_accel i s;
    report_gyro i s
  else mret s.

(** What both motion parts do: read the alternate status and print it. *)
Definition report_alt_status (r : reply bmi323_alt_status) (s : vars) : M vars :=
  '(rslt, status) ← bmi323_read_alternate_status (alt_status s) r;
  let s := set_alt_status status (set_rslt rslt s) in
  printf "Alternate accel status %d\n" [alt_accel_status (alt_status s)];;
  printf "Alternate gyro status %d\n" [alt_gyro_status (alt_status s)];;
  mret s.

(** The any-motion part of the feature branch. *)
Definition report_any_motion (i : iter_env) (s : vars) : M vars :=
  if bit_test (feat_int s) BMI323_INT_STATUS_ANY_MOTION then
    printf "\nAny-motion interrupt generated\n" [];;
    s ← report_alt_status (r_alt_status_any i) s;
    mret (set_count (uint8 (count s + 1)) s)
  else mret s.

(** The no-motion part of the feature branch. *)
Definition report_no_motion (i : iter_env) (s : vars) : M vars :=
  if bit_test (feat_int s) BMI323_INT_STATUS_NO_MOTION then
    printf "\nNo-motion interrupt generated\n" [];;
    report_alt_status (r_alt_status_no i) s
  else mret s.

(** The feature branch: [if (feat_int_status == 1) { ... }]. *)
Definition feat_branch (i : iter_env) (s : vars) : M vars :=
  if feat_int_status s then
    s ← store_feat_int_status false s;
    let s := set_alt_status (AltStatus 0 (alt_gyro_status (alt_status s))) s in
    let s := set_alt_status (AltStatus (alt_accel_status (alt_status s)) 0) s in
    '(rslt, int_status) ← bmi323_get_int2_status (feat_int s) (r_get_int2_status i);
    let s := set_feat_int int_status (set_rslt rslt s) in
    bmi323_error_codes_print_result "Read interrupt status" rslt;;
    s ← report_any_motion i s;
    report_no_motion i s
  else mret s.

(** The body of [while (1)] up to the test of the counter. *)
Definition loop_body (i : iter_env) (s : vars) : M vars :=
  s ← drdy_branch i (interrupts (irq_top i) s);
  feat_branch i (interrupts (irq_mid i) s).

(** [while (1) { ...; if (count == limit) { break; } }], run against the
    recorded environment, one element per pass. *)
Fixpoint acquisition_loop (ins : list iter_env) (s : vars) : M vars :=
  match ins with
  | [] => Run [] Running
  | i :: ins =>
      s ← loop_body i s;
      if decide (count s = limit s) then mret s else acquisition_loop ins s
  end.

(** The variables as [main] has them when it enters the loop. *)
Definition loop_entry (e : setup_env) (rslt : Z) : vars :=
  Vars false false rslt
       (SensorData BMI323_ACCEL (Sample 0 0 0 0))
       (SensorData BMI323_GYRO (Sample 0 0 0 0))
       (AltStatus 0 0)
       (indeterminate_drdy_int e) (indeterminate_feat_int e)
       5 0.

(** [main] *)
Definition main (e : setup_env) (ins : list iter_env) : M Z :=
  let map_int : cstruct := ∅ in
  let feature : cstruct := ∅ in
  let int_cfg : cstruct := ∅ in
  '(rslt, chip_id) ← bmi323_interface_init 0 BMI323_SPI_INTF (r_interface_init e);
  bmi323_error_codes_print_result "bmi323 interface init" rslt;;
  coines_delay_msec 200;;
  init_bmi323 chip_id e;;
  set_feature_config e;;
  let feature := <["any_mot_x_en" := BMI323_ENABLE]> feature in
  let feature := <["no_mot_x_en" := BMI323_ENABLE]> feature in
  rslt ← bmi323_select_sensor feature (r_select_sensor e);
  bmi323_error_codes_print_result "bmi323_select_sensor" rslt;;
  '(rslt, int_cfg) ← bmi323_get_int_pin_config int_cfg (r_get_int_pin_config e);
  bmi323_error_codes_print_result "bmi323_get_int_pin_config" rslt;;
  let int_cfg := <["pin_type" := BMI323_INT1]> int_cfg in
  let int_cfg := <["pin_cfg[0].output_en" := BMI323_INT_OUTPUT_ENABLE]> int_cfg in
  let int_cfg := <["pin_cfg[0].lvl" := BMI323_INT_ACTIVE_HIGH]> int_cfg in
  rslt ← bmi323_set_int_pin_config int_cfg (r_set_int_pin_config_1 e);
  bmi323_error_codes_print_result "bmi323_set_int_pin_config" rslt;;
  let int_cfg := <["pin_type" := BMI323_INT2]> int_cfg in
  let int_cfg := <["pin_cfg[1].output_en" := BMI323_INT_OUTPUT_ENABLE]> int_cfg in
  let int_cfg := <["pin_cfg[1].lvl" := BMI323_INT_ACTIVE_HIGH]> int_cfg in
  rslt ← bmi323_set_int_pin_config int_cfg (r_set_int_pin_config_2 e);
  bmi323_error_codes_print_result "bmi323_set_int_pin_config" rslt;;
  let map_int := <["any_mot_out" := BMI323_INT2]> map_int in
  let map_int := <["no_mot_out" := BMI323_INT2]> map_int in
  let map_int := <["acc_drdy_int" := BMI323_INT1]> map_int in
  let map_int := <["gyr_drdy_int" := BMI323_INT1]> map_int in
  rslt ← bmi323_map_interrupt map_int (r_map_interrupt e);
  bmi323_error_codes_print_result "Map interrupt" rslt;;
  coines_attach_interrupt COINES_SHUTTLE_PIN_20 Drdy_int_callback
                          COINES_PIN_INTERRUPT_FALLING_EDGE;;
  coines_attach_interrupt COINES_SHUTTLE_PIN_21 Feat_int_callback
                          COINES_PIN_INTERRUPT_FALLING_EDGE;;
  printf "Move the board to perform any-motion which runs in user configuration\n" [];;
  printf "Do not move the board to perform no-motion which runs in alternate configuration\n" [];;
  _ ← acquisition_loop ins (loop_entry e rslt);
  coines_close_comm_intf COINES_COMM_INTF_USB;;
  mret EXIT_SUCCESS.

End Program.

(** ** Reading traces *)

Fixpoint occurrences (p : event -> bool) (t : list event) : nat :=
  match t with
  | [] => 0%nat
  | e :: t => ((if p e then 1 else 0) + occurrences p t)%nat
  end.

Definition is_store_drdy (e : event) : bool :=
  match e with Store_drdy_int_status _ => true | _ => false end.

Definition is_store_feat (e : event) : bool :=
  match e with Store_feat_int_status _ => true | _ => false end.

Definition is_int1_read (e : event) : bool :=
  match e with Call_bmi323_get_int1_status => true | _ => false end.

Definition is_int2_read (e : event) : bool :=
  match e with Call_bmi323_get_int2_status => true | _ => false end.

Definition is_exit (e : event) : bool :=
  match e with Call_exit _ => true | _ => false end.

(** The line the loop prints for each any-motion event it counts. *)
Definition is_any_motion_report (e : event) : bool :=
  match e with
  | Call_printf format _ =>
      bool_decide (format = "\nAny-motion interrupt generated\n")
  | _ => false
  end.

(** What the loop does with the alternate status once a motion bit is
    found: one read, then the two members printed. *)
Definition alt_report (a : bmi323_alt_status) : list event :=
  [ Call_bmi323_read_alternate_status;
    Call_printf "Alternate accel status %d\n" [alt_accel_status a];
    Call_printf "Alternate gyro status %d\n" [alt_gyro_status a] ].

(** One sample fetched and printed. *)
Definition accel_report (type : Z) (rslt : Z) (d : sample) : list event :=
  [ Call_bmi323_get_sensor_data type 1;
    Call_bmi323_error_codes_print_result "Get sensor data" rslt;
    Call_printf "Accel-x = %d\tAccel-y = %d\tAccel-z = %d\tSensor time %ld\n"
                [x d; y d; z d; sens_time d] ].

Definition gyro_report (type : Z) (rslt : Z) (d : sample) : list event :=
  [ Call_bmi323_get_sensor_data type 1;
    Call_bmi323_error_codes_print_result "Get sensor data" rslt;
    Call_printf "Gyro-x = %d\tGyro-y = %d\tGyro-z = %d\tSensor time %ld\n"
                [x d; y d; z d; sens_time d] ].

(** A read that failed and left its out-parameter as it was: an error
    code, and nothing stored through the pointer. *)
Definition failed_read `{Headers} {A : Type} (r : reply A) : Prop :=
  code r <> BMI323_OK /\ out r = None.

Section ProgramPoints.
Context `{Headers}.

(** The status that the any-motion part leaves in [alt_status]: the answer
    of its read on top of the zeroes stored at the head of the branch. *)
Definition alt_after_any (i : iter_env) (s : vars) : bmi323_alt_status :=
  if bit_test (stored (feat_int s) (r_get_int2_status i)) BMI323_INT_STATUS_ANY_MOTION
  then stored (AltStatus 0 0) (r_alt_status_any i)
  else AltStatus 0 0.

(** The status that the no-motion part leaves there. *)
Definition alt_after_no (i : iter_env) (s : vars) : bmi323_alt_status :=
  if bit_test (stored (feat_int s) (r_get_int2_status i)) BMI323_INT_STATUS_NO_MOTION
  then stored (alt_after_any i s) (r_alt_status_no i)
  else alt_after_any i s.

(** The value a computation ends with ([d] if it does not end). *)
Definition final {A : Type} (d : A) (m : M A) : A :=
  match outcome m with Done a => a | _ => d end.

(** The variables as the two tests of one pass find them. *)
Definition at_drdy_test (i : iter_env) (s : vars) : vars :=
  interrupts (irq_top i) s.

Definition at_feat_test (i : iter_env) (s : vars) : vars :=
  let s := at_drdy_test i s in
  interrupts (irq_mid i) (final s (drdy_branch i s)).

(** What holds of the variables whenever the loop is running: the two
    elements of [sensor_data] keep the types [main] gave them. *)
Definition loop_vars (s : vars) : Prop :=
  sd_type (sensor_data0 s) = BMI323_ACCEL /\
  sd_type (sensor_data1 s) = BMI323_GYRO.

(** The variables with which the loop of [main] can start a pass: those it
    is entered with, and those a pass leaves when the counter has not
    reached the limit. *)
Inductive in_loop (e : setup_env) : vars -> Prop :=
  | in_loop_entry (rslt : Z) : in_loop e (loop_entry e rslt)
  | in_loop_next (i : iter_env) (s s' : vars) :
      in_loop e s ->
      outcome (loop_body i s) = Done s' ->
      count s' <> limit s' ->
      in_loop e s'.

(** The bodies of the first passes, run one after the other without the
    test of the counter in between. *)
Fixpoint passes (ins : list iter_env) (s : vars) : M vars :=
  match ins with
  | [] => mret s
  | i :: ins => s ← loop_body i s; passes ins s
  end.

(** The loop as the specification words it, with the test of the counter
    at the top of each iteration: [while (count != limit) { ... }]. *)
Fixpoint loop_tested_at_top (ins : list iter_env) (s : vars) : M vars :=
  if decide (count s = limit s) then mret s
  else match ins with
       | [] => Run [] Running
       | i :: ins => s ← loop_body i s; loop_tested_at_top ins s
       end.

(** The status a process ends with: the value [main] returns or the
    argument of [exit]. *)
Definition exit_status (r : result Z) : option Z :=
  match r with
  | Done status => Some status
  | Exit status => Some status
  | Running => None
  end.

End ProgramPoints.


(** The any-motion events that a trace shows. *)
Definition any_motion_events (t : list event) : Z :=
  Z.of_nat (occurrences is_any_motion_report t).

Section SetupPoints.
Context `{Headers}.

(** The array [config] as the batched read of [set_feature_config] leaves
    it. *)
Definition fetched_config (e : setup_env) : list bmi323_sens_config :=
  match outcome (bmi323_get_sensor_config config_types 7 (r_get_sensor_config e)) with
  | Done (_, config) => config
  | _ => config_types
  end.

(** The three stages of [set_feature_config], each with the line that
    prints its result code. *)
Definition stage_get (e : setup_env) : list event :=
  [ Call_bmi323_get_sensor_config config_types 7;
    Call_bmi323_error_codes_print_result "Get sensor config"
                                         (code (r_get_sensor_config e)) ].

Definition stage_set (e : setup_env) : list event :=
  [ Call_bmi323_set_sensor_config (config_settings (fetched_config e)) 7;
    Call_bmi323_error_codes_print_result "Set sensor config"
                                         (r_set_sensor_config e) ].

Definition stage_enable (e : setup_env) : list event :=
  [ Call_bmi323_alternate_config_ctrl
      (Z.lor BMI323_ALT_ACC_ENABLE BMI323_ALT_GYR_ENABLE)
      BMI323_ALT_CONF_RESET_OFF;
    Call_bmi323_error_codes_print_result "Enable alternate config control"
                                         (r_alternate_config_ctrl e) ].

(** The first call of [main] after [set_feature_config]. *)
Definition select_sensor_call : event :=
  Call_bmi323_select_sensor
    (<["no_mot_x_en" := BMI323_ENABLE]> (<["any_mot_x_en" := BMI323_ENABLE]> ∅)).

End SetupPoints.

(** ** A header and some environments to run the model on

    The values are the ones the vendor's headers give the macros (the
    BMI3 sensor API and COINES).  Only the examples use them. *)

Definition vendor_headers : Headers := {|
  BMI323_OK := 0;
  COINES_E_FAILURE := -1;
  EXIT_SUCCESS := 0;
  BMI323_ACCEL := 0;
  BMI323_GYRO := 1;
  BMI323_ANY_MOTION := 3;
  BMI323_NO_MOTION := 4;
  BMI323_ALT_AUTO_CONFIG := 12;
  BMI323_ALT_ACCEL := 10;
  BMI323_ALT_GYRO := 11;
  BMI323_ACC_MODE_NORMAL := 4;
  BMI323_ACC_ODR_100HZ := 8;
  BMI323_ACC_ODR_400HZ := 10;
  BMI323_ACC_AVG4 := 2;
  BMI323_GYR_MODE_NORMAL := 4;
  BMI323_GYR_ODR_100HZ := 8;
  BMI323_GYR_ODR_400HZ := 10;
  BMI323_GYR_AVG4 := 2;
  BMI323_ALT_NO_MOTION := 1;
  BMI323_ALT_ANY_MOTION := 2;
  BMI323_ALT_ACC_ENABLE := 1;
  BMI323_ALT_GYR_ENABLE := 16;
  BMI323_ALT_CONF_RESET_OFF := 0;
  BMI323_SPI_INTF := 0;
  BMI323_ENABLE := 1;
  BMI323_INT1 := 1;
  BMI323_INT2 := 2;
  BMI323_INT_OUTPUT_ENABLE := 1;
  BMI323_INT_ACTIVE_HIGH := 1;
  COINES_SHUTTLE_PIN_20 := 20;
  COINES_SHUTTLE_PIN_21 := 21;
  COINES_PIN_INTERRUPT_FALLING_EDGE := 3;
  COINES_COMM_INTF_USB := 0;
  BMI323_INT_STATUS_ACC_DRDY := 8192;
  BMI323_INT_STATUS_GYR_DRDY := 4096;
  BMI323_INT_STATUS_ANY_MOTION := 2;
  BMI323_INT_STATUS_NO_MOTION := 1
|}.

Definition no_edge : edges := Edges false false.

(** A pass in which nothing happens. *)
Definition quiet_pass : iter_env :=
  IterEnv no_edge (Reply 0 None) (Reply 0 None) (Reply 0 None)
          no_edge (Reply 0 None) (Reply 0 None) (Reply 0 None).

(** A data-ready edge; the status word has both data-ready bits. *)
Definition data_ready_pass : iter_env :=
  IterEnv (Edges true false)
          (Reply 0 (Some 12288))
          (Reply 0 (Some (Sample 12 (-7) 4096 1000)))
          (Reply 0 (Some (Sample 3 0 (-2) 1001)))
          no_edge (Reply 0 None) (Reply 0 None) (Reply 0 None).

(** A feature edge; the status word has the any-motion bit, the sensor
    runs accel on the alternate and gyro on the user configuration. *)
Definition any_motion_pass : iter_env :=
  IterEnv no_edge (Reply 0 None) (Reply 0 None) (Reply 0 None)
          (Edges false true)
          (Reply 0 (Some 2))
          (Reply 0 (Some (AltStatus 1 0)))
          (Reply 0 None).

(** A feature edge; the status word has the no-motion bit only. *)
Definition no_motion_pass : iter_env :=
  IterEnv no_edge (Reply 0 None) (Reply 0 None) (Reply 0 None)
          (Edges false true)
          (Reply 0 (Some 1))
          (Reply 0 None)
          (Reply 0 (Some (AltStatus 1 1))).

(** A feature edge; the status word has both motion bits.  The first read
    of the alternate status answers 1 and 1, the second one fails with a
    communication error and stores nothing. *)
Definition both_motions_pass : iter_env :=
  IterEnv no_edge (Reply 0 None) (Reply 0 None) (Reply 0 None)
          (Edges false true)
          (Reply 0 (Some 3))
          (Reply 0 (Some (AltStatus 1 1)))
          (Reply (-2) None).

(** Both edges in one pass, every read fails and stores nothing. *)
Definition failing_pass : iter_env :=
  IterEnv (Edges true true) (Reply (-2) None) (Reply (-2) None) (Reply (-2) None)
          no_edge (Reply (-2) None) (Reply (-2) None) (Reply (-2) None).

(** Variables of a running loop. *)
Definition some_vars (drdy feat : bool) (limit count : Z) : vars :=
  Vars drdy feat 0
       (SensorData 0 (Sample 0 0 0 0)) (SensorData 1 (Sample 0 0 0 0))
       (AltStatus 1 1) 0 0 limit count.

(** Set-up phases: all calls succeed; the chip does not answer; the batched
    read of the configuration fails; the batched write fails. *)
Definition setup_ok : setup_env :=
  SetupEnv 0 0 (Reply 0 None) (Reply 0 (Some 67)) (Reply 0 (Some (fun _ => ∅))) 0 0 0
           (Reply 0 (Some ∅)) 0 0 0.

Definition setup_init_fails : setup_env :=
  SetupEnv 0 0 (Reply 0 None) (Reply (-2) None) (Reply 0 (Some (fun _ => ∅))) 0 0 0
           (Reply 0 (Some ∅)) 0 0 0.

Definition setup_get_config_fails : setup_env :=
  SetupEnv 0 0 (Reply 0 None) (Reply 0 (Some 67)) (Reply (-2) None) 0 0 0
           (Reply 0 (Some ∅)) 0 0 0.

Definition setup_set_config_fails : setup_env :=
  SetupEnv 0 0 (Reply 0 None) (Reply 0 (Some 67)) (Reply 0 (Some (fun _ => ∅))) (-2) 0 0
           (Reply 0 (Some ∅)) 0 0 0.

(** Five any-motion events, with other passes in between. *)
Definition five_motions : list iter_env :=
  [ data_ready_pass; any_motion_pass; quiet_pass; any_motion_pass;
    no_motion_pass; any_motion_pass; both_motions_pass; data_ready_pass;
    any_motion_pass; quiet_pass; any_motion_pass ].

(** ** More ways to read a trace and an environment *)

Definition is_close_comm (e : event) : bool :=
  match e with Call_coines_close_comm_intf _ => true | _ => false end.

Definition is_attach (e : event) : bool :=
  match e with Call_coines_attach_interrupt _ _ _ => true | _ => false end.

(** The calls that read or write the configuration of the sensor. *)
Definition is_config_call (e : event) : bool :=
  match e with
  | Call_bmi323_get_sensor_config _ _ | Call_bmi323_set_sensor_config _ _
  | Call_bmi323_alternate_config_ctrl _ _ | Call_bmi323_select_sensor _
  | Call_bmi323_get_int_pin_config | Call_bmi323_set_int_pin_config _
  | Call_bmi323_map_interrupt _ => true
  | _ => false
  end.


Definition is_alt_status_read (e : event) : bool :=
  match e with Call_bmi323_read_alternate_status => true | _ => false end.

(** The calls whose result code [main] and [set_feature_config] only
    print, by the name under which the code is printed. *)
Definition unchecked_calls : list string :=
  [ "bmi323 interface init"; "Enable alternate config control";
    "bmi323_select_sensor"; "bmi323_get_int_pin_config";
    "bmi323_set_int_pin_config"; "Map interrupt" ].

(** An event with the result code blanked when it is the result line of
    one of these calls; every other event, the result lines of the other
    calls included, as it is. *)
Definition blank_unchecked_code (e : event) : event :=
  match e with
  | Call_bmi323_error_codes_print_result api_name rslt =>
      if existsb (String.eqb api_name) unchecked_calls
      then Call_bmi323_error_codes_print_result api_name 0
      else e
  | _ => e
  end.

(** The same variables but for [rslt]. *)
Definition same_but_rslt (s s' : vars) : Prop := set_rslt 0 s = set_rslt 0 s'.

(** The same pass, with other result codes for its two reads of the
    alternate status. *)
Definition with_alt_status_codes (c_any c_no : Z) (i : iter_env) : iter_env :=
  IterEnv (irq_top i) (r_get_int1_status i) (r_get_accel i) (r_get_gyro i)
          (irq_mid i) (r_get_int2_status i)
          (Reply c_any (out (r_alt_status_any i)))
          (Reply c_no (out (r_alt_status_no i))).

(** The same set-up, with other result codes for the calls whose result
    [main] and [set_feature_config] only print: the interface
    initialisation, the alternate configuration control, the selection of
    the sensors, the pin configuration and the interrupt mapping. *)
Definition with_setup_codes (c : Z) (e : setup_env) : setup_env :=
  SetupEnv (indeterminate_drdy_int e) (indeterminate_feat_int e)
           (Reply c (out (r_interface_init e)))
           (r_init e) (r_get_sensor_config e) (r_set_sensor_config e)
           c c
           (Reply c (out (r_get_int_pin_config e)))
           c c c.

(** The members that [set_feature_config] assigns, slot by slot. *)
Definition assigned_fields : list (nat * string) :=
  [ (0%nat, "acc.acc_mode"); (0%nat, "acc.odr");
    (1%nat, "any_motion.threshold"); (1%nat, "any_motion.hysteresis");
    (1%nat, "any_motion.duration");
    (2%nat, "no_motion.threshold"); (2%nat, "no_motion.duration");
    (2%nat, "no_motion.hysteresis");
    (3%nat, "alt_auto_cfg.alt_switch_src_select");
    (3%nat, "alt_auto_cfg.user_switch_src_select");
    (4%nat, "alt_acc.alt_acc_mode"); (4%nat, "alt_acc.alt_acc_odr");
    (4%nat, "alt_acc.alt_acc_avg_num");
    (5%nat, "gyr.gyr_mode"); (5%nat, "gyr.odr");
    (6%nat, "alt_gyr.alt_gyro_mode"); (6%nat, "alt_gyr.alt_gyro_odr");
    (6%nat, "alt_gyr.alt_gyro_avg_num") ].

Section SetupTrace.
Context `{Headers}.

(** What [main] does before it calls [set_feature_config], when the chip
    initialises. *)
Definition setup_head (e : setup_env) : list event :=
  [ Call_bmi323_interface_init BMI323_SPI_INTF;
    Call_bmi323_error_codes_print_result "bmi323 interface init"
                                         (code (r_interface_init e));
    Call_coines_delay_msec 200;
    Call_bmi323_init;
    Call_bmi323_error_codes_print_result "bmi323_init" (code (r_init e));
    Call_printf "BMI323 initialization success!\n" [];
    Call_printf "Chip ID - 0x%x\n"
                [stored (stored 0 (r_interface_init e)) (r_init e)] ].

(** The pin configuration as [main] writes it the first time, for INT1. *)
Definition int_cfg_int1 (e : setup_env) : cstruct :=
  <["pin_cfg[0].lvl" := BMI323_INT_ACTIVE_HIGH]>
    (<["pin_cfg[0].output_en" := BMI323_INT_OUTPUT_ENABLE]>
       (<["pin_type" := BMI323_INT1]> (stored ∅ (r_get_int_pin_config e)))).

(** The pin configuration as [main] writes it the second time, for INT2. *)
Definition int_cfg_int2 (e : setup_env) : cstruct :=
  <["pin_cfg[1].lvl" := BMI323_INT_ACTIVE_HIGH]>
    (<["pin_cfg[1].output_en" := BMI323_INT_OUTPUT_ENABLE]>
       (<["pin_type" := BMI323_INT2]> (int_cfg_int1 e))).

(** What [main] does between [set_feature_config] and the loop. *)
Definition setup_tail (e : setup_env) : list event :=
  [ select_sensor_call;
    Call_bmi323_error_codes_print_result "bmi323_select_sensor" (r_select_sensor e);
    Call_bmi323_get_int_pin_config;
    Call_bmi323_error_codes_print_result "bmi323_get_int_pin_config"
                                         (code (r_get_int_pin_config e));
    Call_bmi323_set_int_pin_config (int_cfg_int1 e);
    Call_bmi323_error_codes_print_result "bmi323_set_int_pin_config"
                                         (r_set_int_pin_config_1 e);
    Call_bmi323_set_int_pin_config (int_cfg_int2 e);
    Call_bmi323_error_codes_print_result "bmi323_set_int_pin_config"
                                         (r_set_int_pin_config_2 e);
    Call_bmi323_map_interrupt
      (<["gyr_drdy_int" := BMI323_INT1]>
         (<["acc_drdy_int" := BMI323_INT1]>
            (<["no_mot_out" := BMI323_INT2]>
               (<["any_mot_out" := BMI323_INT2]> ∅))));
    Call_bmi323_error_codes_print_result "Map interrupt" (r_map_interrupt e);
    Call_coines_attach_interrupt COINES_SHUTTLE_PIN_20 Drdy_int_callback
                                 COINES_PIN_INTERRUPT_FALLING_EDGE;
    Call_coines_attach_interrupt COINES_SHUTTLE_PIN_21 Feat_int_callback
                                 COINES_PIN_INTERRUPT_FALLING_EDGE;
    Call_printf
      "Move the board to perform any-motion which runs in user configuration\n" [];
    Call_printf
      "Do not move the board to perform no-motion which runs in alternate configuration\n"
      [] ].

End SetupTrace.

(** The events that a pass of the loop can produce. *)
Definition is_loop_event (e : event) : bool :=
  match e with
  | Store_drdy_int_status _ | Store_feat_int_status _
  | Call_bmi323_get_int1_status | Call_bmi323_get_int2_status
  | Call_bmi323_get_sensor_data _ _ | Call_bmi323_read_alternate_status
  | Call_bmi323_error_codes_print_result _ _ | Call_printf _ _ => true
  | _ => false
  end.

(** A pass in which a data-ready edge arrives after the data-ready test. *)
Definition late_data_ready_pass : iter_env :=
  IterEnv no_edge (Reply 0 None) (Reply 0 None) (Reply 0 None)
          (Edges true false) (Reply 0 None) (Reply 0 None) (Reply 0 None).

(** Slot [j] keeps its type and its member [f] through a function on the
    array. *)
Definition keeps (j : nat) (f : string)
    (F : list bmi323_sens_config -> list bmi323_sens_config) : Prop :=
  forall config c, config !! j = Some c ->
    exists c', F config !! j = Some c' /\
      cfg_type c' = cfg_type c /\ cfg c' !! f = cfg c !! f.

(** An array as the batched read may leave it, with a member of the accel
    slot that the example does not assign. *)
Definition fetched_with_range : list bmi323_sens_config :=
  [ SensConfig 0 {[ "acc.range" := 2 ]}; SensConfig 3 ∅; SensConfig 4 ∅;
    SensConfig 12 ∅; SensConfig 10 ∅; SensConfig 1 ∅; SensConfig 11 ∅ ].

(** The pin configurations that a trace shows being written, in order. *)
Fixpoint pin_configs_written (t : list event) : list cstruct :=
  match t with
  | [] => []
  | Call_bmi323_set_int_pin_config int_cfg :: t => int_cfg :: pin_configs_written t
  | _ :: t => pin_configs_written t
  end.

(** The members of the pin configuration that [main] assigns. *)
Definition assigned_pin_members : list string :=
  [ "pin_type"; "pin_cfg[0].output_en"; "pin_cfg[0].lvl";
    "pin_cfg[1].output_en"; "pin_cfg[1].lvl" ].


(** ** The two branches of the loop body *)

(** Runs the straight-line part of a computation. *)
Ltac run :=
  repeat (cbn -[Z.land Z.lor uint8 insert config_settings config_types imap] in *;
          unfold mbind, M_bind, mret, M_ret, call_out, call, emit in * ).

Section Branches.
Context `{Headers}.

(** *** The data-ready branch, step by step *)

Lemma drdy_branch_idle (i : iter_env) (s : vars) :
  drdy_int_status s = false -> drdy_branch i s = Run [] (Done s).
Proof. intros Hf. unfold drdy_branch. rewrite Hf. reflexivity. Qed.

Lemma drdy_branch_pending (i : iter_env) (s : vars) :
  drdy_int_status s = true ->
  let w := stored (drdy_int s) (r_get_int1_status i) in
  let acc := stored (sens_data (sensor_data0 s)) (r_get_accel i) in
  let gyr := stored (sens_data (sensor_data1 s)) (r_get_gyro i) in
  trace (drdy_branch i s) =
    Store_drdy_int_status false :: Call_bmi323_get_int1_status ::
    Call_bmi323_error_codes_print_result "Read interrupt status"
                                         (code (r_get_int1_status i)) ::
    (if bit_test w BMI323_INT_STATUS_ACC_DRDY
     then accel_report (sd_type (sensor_data0 s)) (code (r_get_accel i)) acc
     else []) ++
    (if bit_test w BMI323_INT_STATUS_GYR_DRDY
     then gyro_report (sd_type (sensor_data1 s)) (code (r_get_gyro i)) gyr
     else []).
Proof.
  intros Hf w acc gyr. subst w acc gyr.
  unfold drdy_branch, report_accel, report_gyro, store_drdy_int_status,
    bmi323_get_int1_status, bmi323_get_sensor_data,
    bmi323_error_codes_print_result, printf.
  rewrite Hf. run.
  destruct (bit_test _ BMI323_INT_STATUS_ACC_DRDY); run;
    destruct (bit_test _ BMI323_INT_STATUS_GYR_DRDY); run; reflexivity.
Qed.

(** The branch always runs to its end; what it leaves untouched. *)
Lemma drdy_branch_done (i : iter_env) (s : vars) :
  exists s', outcome (drdy_branch i s) = Done s' /\
    drdy_int_status s' = false /\
    feat_int_status s' = feat_int_status s /\
    count s' = count s /\ limit s' = limit s /\
    alt_status s' = alt_status s /\ feat_int s' = feat_int s /\
    sd_type (sensor_data0 s') = sd_type (sensor_data0 s) /\
    sd_type (sensor_data1 s') = sd_type (sensor_data1 s).
Proof.
  unfold drdy_branch, report_accel, report_gyro, store_drdy_int_status,
    bmi323_get_int1_status, bmi323_get_sensor_data,
    bmi323_error_codes_print_result, printf.
  destruct (drdy_int_status s) eqn:Hf; run.
  - destruct (bit_test _ BMI323_INT_STATUS_ACC_DRDY); run;
      destruct (bit_test _ BMI323_INT_STATUS_GYR_DRDY); run;
      eexists; (split; [reflexivity|]); cbn; auto 10.
  - eexists; split; [reflexivity|]; auto 10.
Qed.

(** *** The feature branch, step by step *)

Lemma feat_branch_idle (i : iter_env) (s : vars) :
  feat_int_status s = false -> feat_branch i s = Run [] (Done s).
Proof. intros Hf. unfold feat_branch. rewrite Hf. reflexivity. Qed.

Lemma feat_branch_pending (i : iter_env) (s : vars) :
  feat_int_status s = true ->
  let w := stored (feat_int s) (r_get_int2_status i) in
  trace (feat_branch i s) =
    Store_feat_int_status false :: Call_bmi323_get_int2_status ::
    Call_bmi323_error_codes_print_result "Read interrupt status"
                                         (code (r_get_int2_status i)) ::
    (if bit_test w BMI323_INT_STATUS_ANY_MOTION
     then Call_printf "\nAny-motion interrupt generated\n" []
          :: alt_report (alt_after_any i s)
     else []) ++
    (if bit_test w BMI323_INT_STATUS_NO_MOTION
     then Call_printf "\nNo-motion interrupt generated\n" []
          :: alt_report (alt_after_no i s)
     else []).
Proof.
  intros Hf w. subst w.
  unfold alt_after_no, alt_after_any, feat_branch, report_any_motion,
    report_no_motion, report_alt_status, store_feat_int_status,
    bmi323_get_int2_status, bmi323_read_alternate_status,
    bmi323_error_codes_print_result, printf.
  rewrite Hf. run.
  destruct (bit_test _ BMI323_INT_STATUS_ANY_MOTION); run;
    destruct (bit_test _ BMI323_INT_STATUS_NO_MOTION); run; reflexivity.
Qed.

Lemma feat_branch_pending_done (i : iter_env) (s : vars) :
  feat_int_status s = true ->
  let w := stored (feat_int s) (r_get_int2_status i) in
  exists s', outcome (feat_branch i s) = Done s' /\
    feat_int_status s' = false /\
    drdy_int_status s' = drdy_int_status s /\
    count s' = (if bit_test w BMI323_INT_STATUS_ANY_MOTION
                then uint8 (count s + 1) else count s) /\
    limit s' = limit s /\
    alt_status s' = alt_after_no i s /\
    sd_type (sensor_data0 s') = sd_type (sensor_data0 s) /\
    sd_type (sensor_data1 s') = sd_type (sensor_data1 s).
Proof.
  intros Hf w. subst w.
  unfold alt_after_no, alt_after_any, feat_branch, report_any_motion,
    report_no_motion, report_alt_status, store_feat_int_status,
    bmi323_get_int2_status, bmi323_read_alternate_status,
    bmi323_error_codes_print_result, printf.
  rewrite Hf. run.
  destruct (bit_test _ BMI323_INT_STATUS_ANY_MOTION); run;
    destruct (bit_test _ BMI323_INT_STATUS_NO_MOTION); run;
    eexists; (split; [reflexivity|]); cbn; auto 10.
Qed.

Lemma feat_branch_done (i : iter_env) (s : vars) :
  exists s', outcome (feat_branch i s) = Done s' /\
    feat_int_status s' = false /\
    drdy_int_status s' = drdy_int_status s /\
    limit s' = limit s /\
    sd_type (sensor_data0 s') = sd_type (sensor_data0 s) /\
    sd_type (sensor_data1 s') = sd_type (sensor_data1 s).
Proof.
  destruct (feat_int_status s) eqn:Hf.
  - destruct (feat_branch_pending_done i s Hf) as (s' & ? & ? & ? & ? & ? & ? & ? & ?).
    exists s'. auto 10.
  - rewrite feat_branch_idle by done. exists s. auto 10.
Qed.

End Branches.

(** ** Properties of one pass through the loop body *)

Lemma bind_done {A B : Type} (m : M A) (f : A -> M B) (a : A) :
  outcome m = Done a ->
  m ≫= f = Run (trace m ++ trace (f a)) (outcome (f a)).
Proof.
  destruct m as [t r]. cbn. intros ->. unfold mbind, M_bind.
  destruct (f a); reflexivity.
Qed.

Lemma occurrences_app (p : event -> bool) (t1 t2 : list event) :
  occurrences p (t1 ++ t2) = (occurrences p t1 + occurrences p t2)%nat.
Proof. induction t1 as [|e t1 IH]; cbn; [reflexivity|]. rewrite IH. lia. Qed.

Section Pass.
Context `{Headers}.

Lemma final_drdy_branch (i : iter_env) (s : vars) :
  outcome (drdy_branch i s) = Done (final s (drdy_branch i s)).
Proof.
  destruct (drdy_branch_done i s) as (s' & Hs' & _).
  unfold final. rewrite Hs'. reflexivity.
Qed.

(** A pass is its data-ready branch followed by its feature branch. *)
Lemma loop_body_branches (i : iter_env) (s : vars) :
  loop_body i s =
    Run (trace (drdy_branch i (at_drdy_test i s)) ++
         trace (feat_branch i (at_feat_test i s)))
        (outcome (feat_branch i (at_feat_test i s))).
Proof.
  unfold loop_body. fold (at_drdy_test i s).
  rewrite (bind_done _ _ _ (final_drdy_branch i (at_drdy_test i s))).
  reflexivity.
Qed.

(** The feature test of a pass sees the flag as the interrupts left it: the
    data-ready branch in between does not write it. *)
Lemma feat_flag_at_feat_test (i : iter_env) (s : vars) :
  feat_int_status (at_feat_test i s) =
  feat_int_status (interrupts (irq_mid i) (at_drdy_test i s)).
Proof.
  unfold at_feat_test.
  destruct (drdy_branch_done i (at_drdy_test i s)) as (s' & Hs' & _ & Hf & _).
  unfold final. rewrite Hs'. unfold interrupts.
  destruct (drdy_edge (irq_mid i)), (feat_edge (irq_mid i)); cbn; auto.
Qed.

(** C10. The data-ready branch always runs to its end, and it leaves the
    any-motion counter, the feature flag and both members of the alternate
    status as it found them: handling a data-ready event changes neither
    the progress towards termination nor the alternate status that will be
    reported. *)
Theorem drdy_branch_frame (i : iter_env) (s : vars) :
  exists s', outcome (drdy_branch i s) = Done s' /\
    count s' = count s /\
    limit s' = limit s /\
    feat_int_status s' = feat_int_status s /\
    alt_accel_status (alt_status s') = alt_accel_status (alt_status s) /\
    alt_gyro_status (alt_status s') = alt_gyro_status (alt_status s).
Proof.
  destruct (drdy_branch_done i s) as (s' & Hs' & _ & Hf & Hc & Hl & Ha & _).
  exists s'. rewrite Ha. auto 10.
Qed.

(** C5. When the data-ready flag is set and the status-1 word that the
    branch reads has both the accel and the gyro data-ready bit, this one
    pass fetches the accel sample and prints its three axes and its sensor
    time, then fetches the gyro sample and prints its three axes and its
    sensor time. *)
Theorem both_data_ready_reports_both (i : iter_env) (s : vars) :
  loop_vars s ->
  drdy_int_status s = true ->
  let w := stored (drdy_int s) (r_get_int1_status i) in
  bit_test w BMI323_INT_STATUS_ACC_DRDY = true ->
  bit_test w BMI323_INT_STATUS_GYR_DRDY = true ->
  let acc := stored (sens_data (sensor_data0 s)) (r_get_accel i) in
  let gyr := stored (sens_data (sensor_data1 s)) (r_get_gyro i) in
  trace (drdy_branch i s) =
    [ Store_drdy_int_status false;
      Call_bmi323_get_int1_status;
      Call_bmi323_error_codes_print_result "Read interrupt status"
                                           (code (r_get_int1_status i));
      Call_bmi323_get_sensor_data BMI323_ACCEL 1;
      Call_bmi323_error_codes_print_result "Get sensor data" (code (r_get_accel i));
      Call_printf "Accel-x = %d\tAccel-y = %d\tAccel-z = %d\tSensor time %ld\n"
                  [x acc; y acc; z acc; sens_time acc];
      Call_bmi323_get_sensor_data BMI323_GYRO 1;
      Call_bmi323_error_codes_print_result "Get sensor data" (code (r_get_gyro i));
      Call_printf "Gyro-x = %d\tGyro-y = %d\tGyro-z = %d\tSensor time %ld\n"
                  [x gyr; y gyr; z gyr; sens_time gyr] ].
Proof.
  intros [Ht0 Ht1] Hf w Ha Hg acc gyr.
  rewrite (drdy_branch_pending i s Hf). fold w. rewrite Ha, Hg, Ht0, Ht1.
  reflexivity.
Qed.

End Pass.

Lemma both_data_ready_reports_both_witness :
  @loop_vars vendor_headers (some_vars true false 5 0) /\
  trace (@drdy_branch vendor_headers data_ready_pass (some_vars true false 5 0)) =
    [ Store_drdy_int_status false;
      Call_bmi323_get_int1_status;
      Call_bmi323_error_codes_print_result "Read interrupt status" 0;
      Call_bmi323_get_sensor_data 0 1;
      Call_bmi323_error_codes_print_result "Get sensor data" 0;
      Call_printf "Accel-x = %d\tAccel-y = %d\tAccel-z = %d\tSensor time %ld\n"
                  [12; -7; 4096; 1000];
      Call_bmi323_get_sensor_data 1 1;
      Call_bmi323_error_codes_print_result "Get sensor data" 0;
      Call_printf "Gyro-x = %d\tGyro-y = %d\tGyro-z = %d\tSensor time %ld\n"
                  [3; 0; -2; 1001] ].
Proof.
  assert (Hv : @loop_vars vendor_headers (some_vars true false 5 0))
    by (split; reflexivity).
  split; [exact Hv|].
  exact (@both_data_ready_reports_both vendor_headers data_ready_pass
           (some_vars true false 5 0) Hv eq_refl eq_refl eq_refl).
Defined.

Section Flags.
Context `{Headers}.

Lemma drdy_branch_occurrences (i : iter_env) (s : vars) :
  let t := trace (drdy_branch i s) in
  let n := if drdy_int_status s then 1%nat else 0%nat in
  occurrences is_store_drdy t = n /\ occurrences is_int1_read t = n /\
  occurrences is_store_feat t = 0%nat /\ occurrences is_int2_read t = 0%nat.
Proof.
  destruct (drdy_int_status s) eqn:Hf; cbn zeta.
  - rewrite (drdy_branch_pending i s Hf). cbn zeta.
    destruct (bit_test _ BMI323_INT_STATUS_ACC_DRDY);
      destruct (bit_test _ BMI323_INT_STATUS_GYR_DRDY); cbn; auto.
  - rewrite (drdy_branch_idle i s Hf). cbn. auto.
Qed.

Lemma feat_branch_occurrences (i : iter_env) (s : vars) :
  let t := trace (feat_branch i s) in
  let n := if feat_int_status s then 1%nat else 0%nat in
  occurrences is_store_feat t = n /\ occurrences is_int2_read t = n /\
  occurrences is_store_drdy t = 0%nat /\ occurrences is_int1_read t = 0%nat.
Proof.
  destruct (feat_int_status s) eqn:Hf; cbn zeta.
  - rewrite (feat_branch_pending i s Hf). cbn zeta.
    destruct (bit_test _ BMI323_INT_STATUS_ANY_MOTION);
      destruct (bit_test _ BMI323_INT_STATUS_NO_MOTION); cbn; auto.
  - rewrite (feat_branch_idle i s Hf). cbn. auto.
Qed.

Lemma pass_end_flags (i : iter_env) (s : vars) :
  exists s', outcome (loop_body i s) = Done s' /\
    feat_int_status s' = false /\
    drdy_int_status s' = drdy_edge (irq_mid i).
Proof.
  rewrite loop_body_branches. cbn [outcome].
  destruct (feat_branch_done i (at_feat_test i s)) as (s' & Hs' & Hf & Hd & _).
  exists s'. split; [exact Hs'|]. split; [exact Hf|]. rewrite Hd.
  unfold at_feat_test. cbn zeta.
  destruct (drdy_branch_done i (at_drdy_test i s)) as (s1 & Hs1 & Hd1 & _).
  unfold final. rewrite Hs1. unfold interrupts.
  destruct (drdy_edge (irq_mid i)), (feat_edge (irq_mid i)); cbn; auto.
Qed.

Lemma flags_at_tests (i : iter_env) (s : vars) :
  drdy_int_status (at_drdy_test i s) = drdy_int_status s || drdy_edge (irq_top i) /\
  feat_int_status (at_feat_test i s) =
    feat_int_status s || feat_edge (irq_top i) || feat_edge (irq_mid i).
Proof.
  split.
  - unfold at_drdy_test, interrupts.
    destruct (drdy_edge (irq_top i)), (feat_edge (irq_top i)),
      (drdy_int_status s) eqn:Hf; cbn; auto.
  - rewrite feat_flag_at_feat_test. unfold at_drdy_test, interrupts.
    destruct (drdy_edge (irq_top i)), (feat_edge (irq_top i)),
      (drdy_edge (irq_mid i)), (feat_edge (irq_mid i)),
      (feat_int_status s) eqn:Hf; cbn; auto.
Qed.

Lemma drdy_flag_at_feat_test (i : iter_env) (s : vars) :
  drdy_int_status (at_feat_test i s) = drdy_edge (irq_mid i).
Proof.
  unfold at_feat_test. cbn zeta.
  destruct (drdy_branch_done i (at_drdy_test i s)) as (s1 & Hs1 & Hd & _).
  unfold final. rewrite Hs1. unfold interrupts.
  destruct (drdy_edge (irq_mid i)), (feat_edge (irq_mid i)); cbn; auto.
Qed.

(** C6. In a pass that finds the data-ready flag set, the loop stores 0 to
    the flag once, the very next thing it does is the status-1 read, and it
    makes no other store to that flag and no other status-1 read in the
    pass.  In a pass that finds the feature flag set, the same holds of the
    feature flag and the status-2 read, after whatever the data-ready
    branch of the pass did.  A pass that finds a flag clear neither stores
    to it nor reads its status word: one status read per consumed flag.
    The store does clear the flag: at the feature test of the same pass
    the data-ready flag is set only if a data-ready edge arrived after the
    store, and at the data-ready test of the next pass the feature flag is
    set only if a feature edge arrived after the store; unless a new edge
    of its kind arrives, the next pass neither stores to the flag nor
    reads its status word again, so no edge is served twice.
    (The trace has the calls and the stores to the volatile flags; the two
    zeroes that the feature branch writes to its local [alt_status] between
    the store and the call are not events.) *)
Theorem flag_cleared_once_before_status_read (i : iter_env) (s : vars) :
  let t := trace (loop_body i s) in
  let drdy := drdy_int_status (at_drdy_test i s) in
  let feat := feat_int_status (at_feat_test i s) in
  (drdy = true ->
     exists rest,
       t = Store_drdy_int_status false :: Call_bmi323_get_int1_status :: rest) /\
  (feat = true ->
     exists rest,
       t = trace (drdy_branch i (at_drdy_test i s)) ++
           Store_feat_int_status false :: Call_bmi323_get_int2_status :: rest) /\
  occurrences is_store_drdy t = (if drdy then 1 else 0)%nat /\
  occurrences is_int1_read t = (if drdy then 1 else 0)%nat /\
  occurrences is_store_feat t = (if feat then 1 else 0)%nat /\
  occurrences is_int2_read t = (if feat then 1 else 0)%nat /\
  drdy_int_status (at_feat_test i s) = drdy_edge (irq_mid i) /\
  (exists s', outcome (loop_body i s) = Done s') /\
  (forall (i' : iter_env) (s' : vars),
     outcome (loop_body i s) = Done s' ->
     let t' := trace (loop_body i' s') in
     feat_int_status (at_drdy_test i' s') = feat_edge (irq_top i') /\
     (drdy_edge (irq_mid i) = false -> drdy_edge (irq_top i') = false ->
        occurrences is_store_drdy t' = 0%nat /\
        occurrences is_int1_read t' = 0%nat) /\
     (feat_edge (irq_top i') = false -> feat_edge (irq_mid i') = false ->
        occurrences is_store_feat t' = 0%nat /\
        occurrences is_int2_read t' = 0%nat)).
Proof.
  intros t drdy feat.
  assert (Hocc : forall (j : iter_env) (u : vars),
            let tj := trace (loop_body j u) in
            occurrences is_store_drdy tj =
              (if drdy_int_status (at_drdy_test j u) then 1 else 0)%nat /\
            occurrences is_int1_read tj =
              (if drdy_int_status (at_drdy_test j u) then 1 else 0)%nat /\
            occurrences is_store_feat tj =
              (if feat_int_status (at_feat_test j u) then 1 else 0)%nat /\
            occurrences is_int2_read tj =
              (if feat_int_status (at_feat_test j u) then 1 else 0)%nat).
  { intros j u tj. subst tj. rewrite loop_body_branches. cbn [trace].
    destruct (drdy_branch_occurrences j (at_drdy_test j u)) as (Hd1 & Hd2 & Hd3 & Hd4).
    destruct (feat_branch_occurrences j (at_feat_test j u)) as (Hf1 & Hf2 & Hf3 & Hf4).
    cbn zeta in Hd1, Hd2, Hf1, Hf2.
    rewrite !occurrences_app, Hd1, Hd2, Hd3, Hd4, Hf1, Hf2, Hf3, Hf4.
    repeat split; lia. }
  destruct (Hocc i s) as (H1 & H2 & H3 & H4). fold t drdy feat in H1, H2, H3, H4.
  split; [|split; [|split; [|split; [|split; [|split; [|split; [|split]]]]]]];
    try assumption.
  - intros Hd. subst t. rewrite loop_body_branches. cbn [trace].
    rewrite (drdy_branch_pending i _ Hd). cbn zeta. eexists. reflexivity.
  - intros Hf. subst t. rewrite loop_body_branches. cbn [trace].
    rewrite (feat_branch_pending i _ Hf). cbn zeta. eexists. reflexivity.
  - apply drdy_flag_at_feat_test.
  - destruct (pass_end_flags i s) as (s0 & Hs0 & _). exists s0. exact Hs0.
  - intros i' s' Hs' t'.
    destruct (pass_end_flags i s) as (s0 & Hs0 & Hf0 & Hd0).
    rewrite Hs' in Hs0. injection Hs0 as <-.
    destruct (Hocc i' s') as (H1' & H2' & H3' & H4'). fold t' in H1', H2', H3', H4'.
    destruct (flags_at_tests i' s') as [Hdt Hft].
    rewrite Hdt, Hd0 in H1', H2'. rewrite Hft, Hf0 in H3', H4'.
    split; [|split].
    + unfold at_drdy_test, interrupts.
      destruct (drdy_edge (irq_top i')), (feat_edge (irq_top i')); cbn; auto.
    + intros Hmid Htop. rewrite Hmid, Htop in H1', H2'. auto.
    + intros Htop Hmid. rewrite Htop, Hmid in H3', H4'. auto.
Qed.

End Flags.

Section Feature.
Context `{Headers}.

Lemma uint8_succ (n : Z) : 0 <= n < 255 -> uint8 (n + 1) = n + 1.
Proof. intros Hn. unfold uint8. apply Z.mod_small. lia. Qed.

(** C9. When the feature flag is set and the status-2 word that the branch
    reads has both the any-motion and the no-motion bit, both parts run in
    this one pass: the alternate status is read and printed after the
    any-motion line and read and printed again after the no-motion line,
    and the counter goes up by exactly one. *)
Theorem both_motion_bits_report_twice_count_once (i : iter_env) (s : vars) :
  feat_int_status s = true ->
  0 <= count s < 255 ->
  let w := stored (feat_int s) (r_get_int2_status i) in
  bit_test w BMI323_INT_STATUS_ANY_MOTION = true ->
  bit_test w BMI323_INT_STATUS_NO_MOTION = true ->
  let first := stored (AltStatus 0 0) (r_alt_status_any i) in
  let second := stored first (r_alt_status_no i) in
  trace (feat_branch i s) =
    [ Store_feat_int_status false;
      Call_bmi323_get_int2_status;
      Call_bmi323_error_codes_print_result "Read interrupt status"
                                           (code (r_get_int2_status i));
      Call_printf "\nAny-motion interrupt generated\n" [];
      Call_bmi323_read_alternate_status;
      Call_printf "Alternate accel status %d\n" [alt_accel_status first];
      Call_printf "Alternate gyro status %d\n" [alt_gyro_status first];
      Call_printf "\nNo-motion interrupt generated\n" [];
      Call_bmi323_read_alternate_status;
      Call_printf "Alternate accel status %d\n" [alt_accel_status second];
      Call_printf "Alternate gyro status %d\n" [alt_gyro_status second] ] /\
  exists s', outcome (feat_branch i s) = Done s' /\ count s' = count s + 1.
Proof.
  intros Hf Hc w Ha Hn first second. split.
  - rewrite (feat_branch_pending i s Hf). unfold alt_after_no, alt_after_any.
    fold w. rewrite Ha, Hn. reflexivity.
  - destruct (feat_branch_pending_done i s Hf) as (s' & Hs' & _ & _ & Hc' & _).
    exists s'. split; [exact Hs'|].
    fold w in Hc'. rewrite Ha in Hc'. rewrite Hc'. apply uint8_succ, Hc.
Qed.

(** C2.  In a pass that finds the feature flag set: if the status-2 word
    has the any-motion bit, the alternate status is read and printed after
    the any-motion line and the counter goes up by exactly one; if the word
    has the no-motion bit, the alternate status is read and printed after
    the no-motion line and the counter does not go up for it: the
    no-motion part never changes the counter, so over the pass the counter
    is unchanged when the any-motion bit is clear, and has only the one of
    the any-motion part when that bit is set as well. *)
Theorem motion_bits_and_counter (i : iter_env) (s : vars) :
  feat_int_status s = true ->
  0 <= count s < 255 ->
  let w := stored (feat_int s) (r_get_int2_status i) in
  let any := bit_test w BMI323_INT_STATUS_ANY_MOTION in
  let no := bit_test w BMI323_INT_STATUS_NO_MOTION in
  exists s', outcome (feat_branch i s) = Done s' /\
    (any = true ->
       count s' = count s + 1 /\
       exists before after,
         trace (feat_branch i s) =
           before ++
           Call_printf "\nAny-motion interrupt generated\n" []
             :: alt_report (stored (AltStatus 0 0) (r_alt_status_any i)) ++
           after) /\
    (no = true ->
       count s' = (if any then count s + 1 else count s) /\
       exists before,
         trace (feat_branch i s) =
           before ++
           Call_printf "\nNo-motion interrupt generated\n" []
             :: alt_report (stored (alt_after_any i s) (r_alt_status_no i))) /\
    (forall s0, exists s1,
       outcome (report_no_motion i s0) = Done s1 /\ count s1 = count s0).
Proof.
  intros Hf Hc w any no.
  destruct (feat_branch_pending_done i s Hf) as (s' & Hs' & _ & _ & Hc' & _).
  fold w any in Hc'.
  assert (Hcount : count s' = if any then count s + 1 else count s).
  { rewrite Hc'. destruct any; [apply uint8_succ, Hc | reflexivity]. }
  exists s'. split; [exact Hs'|].
  pose proof (feat_branch_pending i s Hf) as Ht. cbn zeta in Ht.
  unfold alt_after_no in Ht. unfold alt_after_any in Ht at 1.
  fold w any no in Ht. split; [|split].
  - intros Ha. rewrite Ha in Hcount, Ht. split; [exact Hcount|].
    eexists [_; _; _], _. rewrite Ht. reflexivity.
  - intros Hn. rewrite Hn in Ht. split; [exact Hcount|].
    eexists. rewrite Ht.
    change (?a :: ?b :: ?c :: ?l ++ ?r) with ((a :: b :: c :: l) ++ r).
    reflexivity.
  - intros s0.
    unfold report_no_motion, report_alt_status, bmi323_read_alternate_status, printf.
    destruct (bit_test (feat_int s0) BMI323_INT_STATUS_NO_MOTION); run;
      eexists; split; reflexivity.
Qed.

(** C7, as amended.  In a pass that finds the feature flag set, both
    members of [alt_status] are zeroed (``user'') before the status-2 read
    and before any read of the alternate status, so nothing the structure
    held before the pass can be printed.  A read of the alternate status
    that fails leaves the structure as it is; what is printed after it is
    then the user defaults when no earlier read of this pass stored a
    status, and it is the status stored by the any-motion read of this
    same pass when both bits are set and that first read stored one.  The
    failure is not fatal and is not even reported: the branch runs to its
    end, [exit] is not called, and the counter moves as if the read had
    succeeded. *)
Theorem alt_status_reset_before_reads (i : iter_env) (s : vars) :
  feat_int_status s = true ->
  let w := stored (feat_int s) (r_get_int2_status i) in
  let any := bit_test w BMI323_INT_STATUS_ANY_MOTION in
  let no := bit_test w BMI323_INT_STATUS_NO_MOTION in
  let t := trace (feat_branch i s) in
  (forall stale, trace (feat_branch i (set_alt_status stale s)) = t) /\
  (any = true -> failed_read (r_alt_status_any i) ->
     exists before after,
       t = before ++
           Call_printf "\nAny-motion interrupt generated\n" []
             :: alt_report (AltStatus 0 0) ++ after) /\
  (no = true -> failed_read (r_alt_status_no i) ->
     any = false \/ failed_read (r_alt_status_any i) ->
     exists before,
       t = before ++
           Call_printf "\nNo-motion interrupt generated\n" []
             :: alt_report (AltStatus 0 0)) /\
  (no = true -> failed_read (r_alt_status_no i) -> any = true ->
     exists before,
       t = before ++
           Call_printf "\nNo-motion interrupt generated\n" []
             :: alt_report (stored (AltStatus 0 0) (r_alt_status_any i))) /\
  occurrences is_exit t = 0%nat /\
  exists s', outcome (feat_branch i s) = Done s' /\
    count s' = (if any then uint8 (count s + 1) else count s).
Proof.
  intros Hf w any no t.
  pose proof (feat_branch_pending i s Hf) as Ht. cbn zeta in Ht.
  unfold alt_after_no, alt_after_any in Ht. fold w any no t in Ht.
  repeat split.
  - intros stale. subst t. rewrite Ht.
    rewrite (feat_branch_pending i (set_alt_status stale s) Hf).
    reflexivity.
  - intros Ha [_ Hr]. rewrite Ha in Ht. unfold stored in Ht at 1.
    rewrite Hr in Ht. eexists [_; _; _], _. rewrite Ht. reflexivity.
  - intros Hn [_ Hr] Hfirst. rewrite Hn in Ht.
    assert (Hzero : (if any then stored (AltStatus 0 0) (r_alt_status_any i)
                     else AltStatus 0 0) = AltStatus 0 0).
    { destruct Hfirst as [-> | [_ Hr1]]; [reflexivity|].
      unfold stored. rewrite Hr1. destruct any; reflexivity. }
    rewrite Hzero in Ht. unfold stored in Ht. rewrite Hr in Ht. cbn [default] in Ht.
    eexists. rewrite Ht.
    change (?a :: ?b :: ?c :: ?l ++ ?r) with ((a :: b :: c :: l) ++ r).
    reflexivity.
  - intros Hn [_ Hr] Ha. rewrite Hn, Ha in Ht.
    unfold stored in Ht at 2. rewrite Hr in Ht. cbn [default] in Ht.
    eexists. rewrite Ht.
    change (?a :: ?b :: ?c :: ?l ++ ?r) with ((a :: b :: c :: l) ++ r).
    reflexivity.
  - rewrite Ht. destruct any, no; reflexivity.
  - destruct (feat_branch_pending_done i s Hf) as (s' & Hs' & _ & _ & Hc' & _).
    exists s'. split; [exact Hs' | exact Hc'].
Qed.

End Feature.

(** *** The properties above at concrete passes *)

Lemma flag_cleared_once_before_status_read_witness :
  drdy_int_status (at_drdy_test failing_pass (some_vars false false 5 0)) = true /\
  feat_int_status (@at_feat_test vendor_headers failing_pass
                     (some_vars false false 5 0)) = true /\
  occurrences is_store_drdy
    (trace (@loop_body vendor_headers failing_pass (some_vars false false 5 0)))
  = 1%nat /\
  occurrences is_int2_read
    (trace (@loop_body vendor_headers failing_pass (some_vars false false 5 0)))
  = 1%nat /\
  (exists s',
     outcome (@loop_body vendor_headers failing_pass (some_vars false false 5 0))
     = Done s') /\
  forall s',
    outcome (@loop_body vendor_headers failing_pass (some_vars false false 5 0))
    = Done s' ->
    feat_int_status (at_drdy_test quiet_pass s') = false /\
    occurrences is_int2_read (trace (@loop_body vendor_headers quiet_pass s'))
    = 0%nat.
Proof.
  pose proof (@flag_cleared_once_before_status_read vendor_headers failing_pass
                (some_vars false false 5 0))
    as (_ & _ & Hd & _ & _ & Hf & _ & Hdone & Hnext).
  split; [reflexivity|]. split; [reflexivity|].
  split; [exact Hd|]. split; [exact Hf|]. split; [exact Hdone|].
  intros s' Hs'. destruct (Hnext quiet_pass s' Hs') as (Hflag & _ & Hfeat).
  split; [exact Hflag|]. exact (proj2 (Hfeat eq_refl eq_refl)).
Defined.

Lemma both_motion_bits_report_twice_count_once_witness :
  feat_int_status (some_vars false true 5 0) = true /\
  0 <= count (some_vars false true 5 0) < 255 /\
  exists s',
    outcome (@feat_branch vendor_headers both_motions_pass
               (some_vars false true 5 0)) = Done s' /\
    count s' = 1.
Proof.
  split; [reflexivity|]. split; [cbn; lia|].
  refine (proj2 (@both_motion_bits_report_twice_count_once vendor_headers
                   both_motions_pass (some_vars false true 5 0)
                   eq_refl _ eq_refl eq_refl)).
  cbn. lia.
Defined.

Lemma motion_bits_and_counter_witness :
  feat_int_status (some_vars false true 5 0) = true /\
  0 <= count (some_vars false true 5 0) < 255 /\
  exists s',
    outcome (@feat_branch vendor_headers no_motion_pass
               (some_vars false true 5 0)) = Done s' /\
    count s' = 0.
Proof.
  split; [reflexivity|]. split; [cbn; lia|].
  assert (Hc : 0 <= count (some_vars false true 5 0) < 255) by (cbn; lia).
  destruct (@motion_bits_and_counter vendor_headers no_motion_pass
              (some_vars false true 5 0) eq_refl Hc) as (s' & Hs' & _ & Hno & _).
  exists s'. split; [exact Hs'|]. exact (proj1 (Hno eq_refl)).
Defined.

(** C7, as stated, fails when both bits are set, the first read of the
    alternate status stores 1 and 1 and the second read fails: what is
    printed after the failed read is 1 and 1, not the user defaults. *)
Lemma failed_read_reports_defaults_counterexample :
  ~ (forall (H : Headers) (i : iter_env) (s : vars),
       feat_int_status s = true ->
       bit_test (stored (feat_int s) (r_get_int2_status i))
                BMI323_INT_STATUS_NO_MOTION = true ->
       failed_read (r_alt_status_no i) ->
       exists before,
         trace (feat_branch i s) = before ++ alt_report (AltStatus 0 0)).
Proof.
  intros Hclaim.
  destruct (Hclaim vendor_headers both_motions_pass (some_vars false true 5 0)
              eq_refl eq_refl) as [before Hb].
  { split; [discriminate | reflexivity]. }
  apply (f_equal (@last event)) in Hb. rewrite last_app in Hb.
  vm_compute in Hb. discriminate Hb.
Qed.

Lemma alt_status_reset_before_reads_witness :
  feat_int_status (some_vars false true 5 0) = true /\
  @failed_read vendor_headers _ (r_alt_status_no both_motions_pass) /\
  exists before,
    trace (@feat_branch vendor_headers both_motions_pass (some_vars false true 5 0))
    = before ++
      Call_printf "\nNo-motion interrupt generated\n" []
        :: alt_report (AltStatus 1 1).
Proof.
  assert (Hr : @failed_read vendor_headers _ (r_alt_status_no both_motions_pass))
    by (split; [discriminate | reflexivity]).
  split; [reflexivity|]. split; [exact Hr|].
  destruct (@alt_status_reset_before_reads vendor_headers both_motions_pass
              (some_vars false true 5 0) eq_refl) as (_ & _ & _ & Hboth & _).
  exact (Hboth eq_refl Hr eq_refl).
Defined.

(** ** The acquisition loop *)

Section Loop.
Context `{Headers}.

Lemma any_motion_events_app (t1 t2 : list event) :
  any_motion_events (t1 ++ t2) = any_motion_events t1 + any_motion_events t2.
Proof. unfold any_motion_events. rewrite occurrences_app. lia. Qed.

Lemma drdy_branch_quiet (i : iter_env) (s : vars) :
  any_motion_events (trace (drdy_branch i s)) = 0 /\
  occurrences is_exit (trace (drdy_branch i s)) = 0%nat.
Proof.
  destruct (drdy_int_status s) eqn:Hf.
  - rewrite (drdy_branch_pending i s Hf). cbn zeta.
    destruct (bit_test _ BMI323_INT_STATUS_ACC_DRDY);
      destruct (bit_test _ BMI323_INT_STATUS_GYR_DRDY); split; reflexivity.
  - rewrite (drdy_branch_idle i s Hf). split; reflexivity.
Qed.

Lemma feat_branch_events (i : iter_env) (s : vars) :
  occurrences is_exit (trace (feat_branch i s)) = 0%nat /\
  exists s', outcome (feat_branch i s) = Done s' /\ limit s' = limit s /\
    (any_motion_events (trace (feat_branch i s)) = 0 /\ count s' = count s \/
     any_motion_events (trace (feat_branch i s)) = 1 /\
     count s' = uint8 (count s + 1)).
Proof.
  destruct (feat_int_status s) eqn:Hf.
  - destruct (feat_branch_pending_done i s Hf) as (s' & Hs' & _ & _ & Hc & Hl & _).
    rewrite (feat_branch_pending i s Hf). cbn zeta in *.
    split.
    + destruct (bit_test _ BMI323_INT_STATUS_ANY_MOTION);
        destruct (bit_test _ BMI323_INT_STATUS_NO_MOTION); reflexivity.
    + exists s'. split; [exact Hs'|]. split; [exact Hl|]. rewrite Hc.
      destruct (bit_test _ BMI323_INT_STATUS_ANY_MOTION);
        destruct (bit_test _ BMI323_INT_STATUS_NO_MOTION);
        [right|right|left|left]; split; reflexivity.
  - rewrite (feat_branch_idle i s Hf). split; [reflexivity|].
    exists s. cbn. auto.
Qed.

(** One pass: it runs to its end, calls no [exit], keeps the limit, and
    either shows no any-motion event and keeps the counter, or shows one
    and adds one to the counter. *)
Lemma loop_body_step (i : iter_env) (s : vars) :
  occurrences is_exit (trace (loop_body i s)) = 0%nat /\
  exists s', outcome (loop_body i s) = Done s' /\ limit s' = limit s /\
    (any_motion_events (trace (loop_body i s)) = 0 /\ count s' = count s \/
     any_motion_events (trace (loop_body i s)) = 1 /\
     count s' = uint8 (count s + 1)).
Proof.
  rewrite loop_body_branches. cbn [trace outcome].
  destruct (drdy_branch_quiet i (at_drdy_test i s)) as [Hq He].
  destruct (feat_branch_events i (at_feat_test i s)) as (He' & s' & Hs' & Hl & Hc).
  rewrite any_motion_events_app, occurrences_app, Hq, He, He'.
  split; [reflexivity|]. exists s'. split; [exact Hs'|].
  assert (Hframe : limit (at_feat_test i s) = limit s /\
                   count (at_feat_test i s) = count s).
  { unfold at_feat_test.
    destruct (drdy_branch_done i (at_drdy_test i s))
      as (s1 & Hs1 & _ & _ & Hc1 & Hl1 & _).
    unfold final. rewrite Hs1. unfold at_drdy_test, interrupts in *.
    destruct (drdy_edge (irq_mid i)), (feat_edge (irq_mid i)),
      (drdy_edge (irq_top i)), (feat_edge (irq_top i)); cbn in *; auto. }
  destruct Hframe as [Hl0 Hc0]. rewrite Hl0, Hc0 in *.
  split; [exact Hl|]. exact Hc.
Qed.

Lemma passes_cons (i : iter_env) (ins : list iter_env) (s s1 : vars) :
  outcome (loop_body i s) = Done s1 ->
  passes (i :: ins) s =
    Run (trace (loop_body i s) ++ trace (passes ins s1)) (outcome (passes ins s1)).
Proof. intros Hs1. cbn [passes]. apply bind_done, Hs1. Qed.

Lemma acquisition_loop_cons (i : iter_env) (ins : list iter_env) (s s1 : vars) :
  outcome (loop_body i s) = Done s1 ->
  acquisition_loop (i :: ins) s =
    if decide (count s1 = limit s1)
    then Run (trace (loop_body i s) ++ []) (Done s1)
    else Run (trace (loop_body i s) ++ trace (acquisition_loop ins s1))
             (outcome (acquisition_loop ins s1)).
Proof.
  intros Hs1. cbn [acquisition_loop]. rewrite (bind_done _ _ _ Hs1).
  destruct (decide (count s1 = limit s1)); reflexivity.
Qed.

(** The loop from any point where the counter is still below the limit. *)
Lemma acquisition_loop_from (ins : list iter_env) :
  forall s : vars,
    0 <= count s < limit s -> limit s <= 255 ->
    let r := acquisition_loop ins s in
    occurrences is_exit (trace r) = 0%nat /\
    match outcome r with
    | Done s' =>
        count s + any_motion_events (trace r) = limit s /\
        count s' = limit s /\
        exists k, (1 <= k <= length ins)%nat /\
          r = passes (take k ins) s /\
          count s + any_motion_events (trace (passes (take (k - 1) ins) s))
          = limit s - 1
    | Running =>
        count s + any_motion_events (trace r) < limit s /\
        trace r = trace (passes ins s)
    | Exit _ => False
    end.
Proof.
  induction ins as [|i ins IH]; intros s Hc Hl r; subst r.
  - cbn. split; [reflexivity|]. split; [unfold any_motion_events; cbn; lia | reflexivity].
  - destruct (loop_body_step i s) as (He & s1 & Hs1 & Hl1 & Hstep).
    rewrite (acquisition_loop_cons i ins s s1 Hs1).
    assert (Hc1 : count s1 = count s + any_motion_events (trace (loop_body i s)) /\
                  0 <= any_motion_events (trace (loop_body i s)) <= 1).
    { destruct Hstep as [[-> ->] | [-> ->]]; [lia|].
      rewrite uint8_succ by lia. lia. }
    destruct Hc1 as [Hc1 Hn1].
    destruct (decide (count s1 = limit s1)) as [Heq | Hne]; cbn [trace outcome].
    + rewrite app_nil_r. split; [exact He|].
      split; [lia|]. split; [lia|].
      exists 1%nat. split; [cbn; lia|]. split.
      * change (take 1 (i :: ins)) with [i].
        rewrite (passes_cons i [] s s1 Hs1). cbn [passes mret M_ret trace outcome].
        rewrite app_nil_r. reflexivity.
      * cbn. unfold any_motion_events at 1. cbn. lia.
    + specialize (IH s1). cbn zeta in IH.
      destruct IH as [He1 IH]; [lia | lia |].
      rewrite occurrences_app, any_motion_events_app, He, He1.
      split; [reflexivity|].
      destruct (outcome (acquisition_loop ins s1)) as [s' | st |] eqn:Ho.
      * destruct IH as (Hn & Hs' & k & Hk & Hr & Hprev).
        split; [lia|]. split; [lia|].
        exists (S k). split; [cbn; lia|]. split.
        -- cbn [take]. rewrite (passes_cons i _ s s1 Hs1), <- Hr, Ho. reflexivity.
        -- replace (S k - 1)%nat with (S (k - 1)) by lia. cbn [take].
           rewrite (passes_cons i _ s s1 Hs1). cbn [trace].
           rewrite any_motion_events_app. lia.
      * exact IH.
      * destruct IH as [Hn Ht]. split; [lia|].
        rewrite (passes_cons i ins s s1 Hs1). cbn [trace]. rewrite Ht. reflexivity.
Qed.

(** With the test at the end of the body, where the source has it, or at
    the top, the loop runs alike as long as the counter does not already
    stand at the limit when the loop is entered. *)
Lemma loop_test_position_immaterial (ins : list iter_env) :
  forall s : vars,
    count s <> limit s -> acquisition_loop ins s = loop_tested_at_top ins s.
Proof.
  induction ins as [|i ins IH]; intros s Hne.
  - cbn. destruct (decide (count s = limit s)); [contradiction | reflexivity].
  - destruct (loop_body_step i s) as (_ & s1 & Hs1 & _).
    rewrite (acquisition_loop_cons i ins s s1 Hs1).
    cbn [loop_tested_at_top].
    destruct (decide (count s = limit s)); [contradiction|].
    rewrite (bind_done _ _ _ Hs1).
    destruct (decide (count s1 = limit s1)) as [Heq | Hne1].
    + destruct ins; cbn [loop_tested_at_top];
        destruct (decide (count s1 = limit s1)); try contradiction; reflexivity.
    + rewrite (IH s1 Hne1). reflexivity.
Qed.

End Loop.

Section Invariant.
Context `{Headers}.

Lemma interrupts_frame (ed : edges) (s : vars) :
  count (interrupts ed s) = count s /\ limit (interrupts ed s) = limit s /\
  sd_type (sensor_data0 (interrupts ed s)) = sd_type (sensor_data0 s) /\
  sd_type (sensor_data1 (interrupts ed s)) = sd_type (sensor_data1 s).
Proof. unfold interrupts. destruct (drdy_edge ed), (feat_edge ed); cbn; auto. Qed.

(** The two tests of a pass find the counter, the limit and the types of
    the two elements of [sensor_data] as the pass found them. *)
Lemma tests_frame (i : iter_env) (s : vars) :
  (loop_vars s -> loop_vars (at_drdy_test i s) /\ loop_vars (at_feat_test i s)) /\
  count (at_drdy_test i s) = count s /\ count (at_feat_test i s) = count s /\
  limit (at_drdy_test i s) = limit s /\ limit (at_feat_test i s) = limit s.
Proof.
  unfold at_feat_test, at_drdy_test, loop_vars. cbn zeta.
  destruct (interrupts_frame (irq_top i) s) as (Hc0 & Hl0 & Ha0 & Hg0).
  destruct (drdy_branch_done i (interrupts (irq_top i) s))
    as (s1 & Hs1 & _ & _ & Hc1 & Hl1 & _ & _ & Ha1 & Hg1).
  unfold final. rewrite Hs1.
  destruct (interrupts_frame (irq_mid i) s1) as (Hc2 & Hl2 & Ha2 & Hg2).
  split; [intros [Ha Hg]; repeat split; congruence|].
  repeat split; congruence.
Qed.

Lemma loop_body_loop_vars (i : iter_env) (s s' : vars) :
  outcome (loop_body i s) = Done s' -> loop_vars s -> loop_vars s'.
Proof.
  rewrite loop_body_branches. cbn [outcome]. intros Hs' Hv.
  destruct (tests_frame i s) as (Ht & _). destruct (Ht Hv) as [_ [Ha Hg]].
  destruct (feat_branch_done i (at_feat_test i s)) as (s2 & Hs2 & _ & _ & _ & Ha2 & Hg2).
  rewrite Hs2 in Hs'. injection Hs' as <-. split; congruence.
Qed.

(** Whenever the loop of [main] starts a pass, the limit is 5, the counter
    is below it, and [sensor_data] has its accel and its gyro element: the
    conditions under which the properties of one pass were stated. *)
Lemma in_loop_invariant (e : setup_env) (s : vars) :
  in_loop e s -> loop_vars s /\ limit s = 5 /\ 0 <= count s < 5.
Proof.
  induction 1 as [rslt | i s s' _ IH Hs' Hne].
  - cbn. repeat split; lia.
  - destruct IH as (Hv & Hl & Hc).
    destruct (loop_body_step i s) as (_ & s1 & Hs1 & Hl1 & Hstep).
    rewrite Hs' in Hs1. injection Hs1 as <-.
    split; [exact (loop_body_loop_vars i s s' Hs' Hv)|].
    split; [congruence|].
    destruct Hstep as [[_ ->] | [_ Hc']]; [lia|].
    rewrite uint8_succ in Hc' by lia. lia.
Qed.

End Invariant.

Section LoopClaims.
Context `{Headers}.

(** C1.  The loop of [main] is entered with the counter at 0 and the limit
    at 5, and nothing in it writes the limit.  It leaves exactly when the
    counter reaches the limit: it leaves at the end of the pass that shows
    the any-motion event number [limit], so the trace then shows exactly
    [limit] such events and the passes before that one show [limit - 1]
    (not before); as long as it has not left, fewer than [limit] events
    were shown and every pass of the environment was run, and it does
    leave once the environment holds [limit] events (not after).  The test
    of the counter is the only way out: nothing in the loop calls [exit].
    Every run is the run of the loop that tests the counter at the top of
    each iteration: entered below the limit, the test that the source
    makes at the end of a pass is the test at the top of the next one. *)
Theorem loop_exits_exactly_at_limit
    (e : setup_env) (rslt : Z) (ins : list iter_env) :
  let s := loop_entry e rslt in
  let r := acquisition_loop ins s in
  count s = 0 /\ limit s = 5 /\
  r = loop_tested_at_top ins s /\
  (forall s', outcome r = Done s' ->
     any_motion_events (trace r) = limit s /\
     count s' = limit s /\
     exists k, (1 <= k <= length ins)%nat /\
       r = passes (take k ins) s /\
       any_motion_events (trace (passes (take (k - 1) ins) s)) = limit s - 1) /\
  (outcome r = Running ->
     any_motion_events (trace r) < limit s /\
     trace r = trace (passes ins s)) /\
  (limit s <= any_motion_events (trace (passes ins s)) ->
     exists s', outcome r = Done s') /\
  (forall status, outcome r <> Exit status) /\
  occurrences is_exit (trace r) = 0%nat.
Proof.
  intros s r.
  split; [reflexivity|]. split; [reflexivity|].
  split; [apply loop_test_position_immaterial; cbn; lia|].
  destruct (acquisition_loop_from ins s) as [He Hr]; [cbn; lia | cbn; lia |].
  fold r in He, Hr. change (count s) with 0 in Hr.
  destruct (outcome r) as [s1 | st |] eqn:Ho; [| contradiction |].
  - destruct Hr as (Hn & Hs1 & k & Hk & Hp & Hprev).
    split; [|split; [|split; [|split]]].
    + intros s' [= <-]. split; [lia|]. split; [exact Hs1|].
      exists k. split; [exact Hk|]. split; [exact Hp | lia].
    + discriminate.
    + intros _. exists s1. reflexivity.
    + discriminate.
    + exact He.
  - destruct Hr as [Hn Ht].
    split; [|split; [|split; [|split]]].
    + discriminate.
    + intros _. split; [lia | exact Ht].
    + intros Hge. rewrite Ht in Hn. lia.
    + discriminate.
    + exact He.
Qed.

End LoopClaims.

Lemma loop_exits_exactly_at_limit_witness :
  (exists s',
     outcome (@acquisition_loop vendor_headers five_motions
                (@loop_entry vendor_headers setup_ok 0)) = Done s') /\
  forall s',
    outcome (@acquisition_loop vendor_headers five_motions
               (@loop_entry vendor_headers setup_ok 0)) = Done s' ->
    any_motion_events
      (trace (@acquisition_loop vendor_headers five_motions
                (@loop_entry vendor_headers setup_ok 0))) = 5 /\
    count s' = 5.
Proof.
  destruct (@loop_exits_exactly_at_limit vendor_headers setup_ok 0 five_motions)
    as (_ & _ & _ & Hdone & _ & Hlive & _).
  split.
  - apply Hlive. vm_compute. discriminate.
  - intros s' Hs'. destruct (Hdone s' Hs') as (Hn & Hc & _).
    split; [exact Hn | exact Hc].
Defined.

(** ** The set-up phase and the whole program *)

Ltac eval_main :=
  lazy [init_bmi323 bmi323_interface_init bmi323_init coines_delay_msec
        bmi323_select_sensor bmi323_get_int_pin_config bmi323_set_int_pin_config
        bmi323_map_interrupt coines_attach_interrupt coines_close_comm_intf
        bmi323_error_codes_print_result printf exit mbind M_bind mret M_ret
        call_out call emit trace outcome app].

Section Setup.
Context `{Headers}.

Lemma set_feature_config_run (e : setup_env) :
  set_feature_config e =
    Run (stage_get e ++
         if decide (code (r_get_sensor_config e) = BMI323_OK)
         then stage_set e ++
              (if decide (r_set_sensor_config e = BMI323_OK)
               then stage_enable e else [])
         else [])
        (Done tt).
Proof.
  unfold set_feature_config, stage_get, stage_set, stage_enable, fetched_config,
    bmi323_get_sensor_config, bmi323_set_sensor_config,
    bmi323_alternate_config_ctrl, bmi323_error_codes_print_result.
  run.
  destruct (decide (code (r_get_sensor_config e) = BMI323_OK)); run;
    [|reflexivity].
  destruct (decide (r_set_sensor_config e = BMI323_OK)); run; reflexivity.
Qed.


(** [main] when the chip does not initialise: the process exits at once. *)
Lemma main_init_failure (e : setup_env) (ins : list iter_env) :
  code (r_init e) <> BMI323_OK ->
  main e ins =
    Run [ Call_bmi323_interface_init BMI323_SPI_INTF;
          Call_bmi323_error_codes_print_result "bmi323 interface init"
                                               (code (r_interface_init e));
          Call_coines_delay_msec 200;
          Call_bmi323_init;
          Call_bmi323_error_codes_print_result "bmi323_init" (code (r_init e));
          Call_printf "BMI323 initialization failure!\n" [];
          Call_exit COINES_E_FAILURE ]
        (Exit COINES_E_FAILURE).
Proof.
  intros Hinit. unfold main. eval_main.
  destruct (decide (code (r_init e) = BMI323_OK)); [contradiction|].
  eval_main. reflexivity.
Qed.

(** [main] when the chip initialises: whatever [set_feature_config] met,
    [main] goes on with [bmi323_select_sensor] and enters the loop; it never
    calls [exit], and it returns [EXIT_SUCCESS] when the loop is left. *)
Lemma main_init_success (e : setup_env) (ins : list iter_env) :
  code (r_init e) = BMI323_OK ->
  exists before between,
    trace (main e ins) =
      before ++ trace (set_feature_config e) ++ select_sensor_call :: between ++
      trace (acquisition_loop ins (loop_entry e (r_map_interrupt e))) ++
      match outcome (acquisition_loop ins (loop_entry e (r_map_interrupt e))) with
      | Done _ => [Call_coines_close_comm_intf COINES_COMM_INTF_USB]
      | _ => []
      end /\
    occurrences is_exit before = 0%nat /\
    occurrences is_exit between = 0%nat /\
    outcome (main e ins) =
      match outcome (acquisition_loop ins (loop_entry e (r_map_interrupt e))) with
      | Done _ => Done EXIT_SUCCESS
      | Exit status => Exit status
      | Running => Running
      end.
Proof.
  intros Hinit.
  unfold main. rewrite (set_feature_config_run e).
  generalize (stage_get e ++
         if decide (code (r_get_sensor_config e) = BMI323_OK)
         then stage_set e ++
              (if decide (r_set_sensor_config e = BMI323_OK)
               then stage_enable e else [])
         else []) as tc.
  intros tc.
  destruct (acquisition_loop ins (loop_entry e (r_map_interrupt e)))
    as [tl ol] eqn:Hloop.
  unfold select_sensor_call.
  destruct ol as [s1 | st |]; cbn [trace outcome]; rewrite ?app_nil_r.
  all: eval_main;
    (destruct (decide (code (r_init e) = BMI323_OK)); [|contradiction]);
    eval_main; rewrite Hloop; eval_main.
  all: eexists [_; _; _; _; _; _; _], [_; _; _; _; _; _; _; _; _; _; _; _; _];
    split; [reflexivity | split; [reflexivity | split; reflexivity]].
Qed.

End Setup.

Section MainRun.
Context `{Headers}.

(** The whole run of [main] when the chip initialises. *)
Lemma main_run (e : setup_env) (ins : list iter_env) :
  code (r_init e) = BMI323_OK ->
  let loop := acquisition_loop ins (loop_entry e (r_map_interrupt e)) in
  main e ins =
    Run (setup_head e ++ trace (set_feature_config e) ++ setup_tail e ++
         trace loop ++
         match outcome loop with
         | Done _ => [Call_coines_close_comm_intf COINES_COMM_INTF_USB]
         | _ => []
         end)
        (match outcome loop with
         | Done _ => Done EXIT_SUCCESS
         | Exit status => Exit status
         | Running => Running
         end).
Proof.
  intros Hinit loop. subst loop.
  unfold main. rewrite (set_feature_config_run e).
  generalize (stage_get e ++
         if decide (code (r_get_sensor_config e) = BMI323_OK)
         then stage_set e ++
              (if decide (r_set_sensor_config e = BMI323_OK)
               then stage_enable e else [])
         else []) as tc.
  intros tc.
  destruct (acquisition_loop ins (loop_entry e (r_map_interrupt e)))
    as [tl ol] eqn:Hloop.
  unfold setup_head, setup_tail, int_cfg_int2, int_cfg_int1, select_sensor_call.
  destruct ol as [s1 | st |]; cbn [trace outcome]; rewrite ?app_nil_r.
  all: eval_main;
    (destruct (decide (code (r_init e) = BMI323_OK)); [|contradiction]);
    eval_main; rewrite Hloop; eval_main; reflexivity.
Qed.

End MainRun.

Section SetupClaims.
Context `{Headers}.

Lemma loop_body_events (i : iter_env) (s : vars) :
  forallb is_loop_event (trace (loop_body i s)) = true.
Proof.
  rewrite loop_body_branches. cbn [trace]. rewrite forallb_app.
  apply andb_true_intro. split.
  - destruct (drdy_int_status (at_drdy_test i s)) eqn:Hf.
    + rewrite (drdy_branch_pending i _ Hf). cbn zeta.
      destruct (bit_test _ BMI323_INT_STATUS_ACC_DRDY);
        destruct (bit_test _ BMI323_INT_STATUS_GYR_DRDY); reflexivity.
    + rewrite (drdy_branch_idle i _ Hf). reflexivity.
  - destruct (feat_int_status (at_feat_test i s)) eqn:Hf.
    + rewrite (feat_branch_pending i _ Hf). cbn zeta.
      destruct (bit_test _ BMI323_INT_STATUS_ANY_MOTION);
        destruct (bit_test _ BMI323_INT_STATUS_NO_MOTION); reflexivity.
    + rewrite (feat_branch_idle i _ Hf). reflexivity.
Qed.

Lemma acquisition_loop_events (ins : list iter_env) :
  forall s, forallb is_loop_event (trace (acquisition_loop ins s)) = true.
Proof.
  induction ins as [|i ins IH]; intros s; [reflexivity|].
  destruct (loop_body_step i s) as (_ & s1 & Hs1 & _).
  rewrite (acquisition_loop_cons i ins s s1 Hs1).
  destruct (decide (count s1 = limit s1)); cbn [trace];
    rewrite forallb_app, loop_body_events; [reflexivity|].
  cbn. apply IH.
Qed.


Lemma set_feature_config_no_exit (e : setup_env) :
  occurrences is_exit (trace (set_feature_config e)) = 0%nat.
Proof.
  rewrite set_feature_config_run. cbn [trace].
  destruct (decide (code (r_get_sensor_config e) = BMI323_OK));
    destruct (decide (r_set_sensor_config e = BMI323_OK)); reflexivity.
Qed.

(** The loop of [main] is entered with the counter at 0 and the limit 5,
    so it is left through the test of the counter or not at all. *)
Lemma main_loop_no_exit (e : setup_env) (ins : list iter_env) (rslt : Z) :
  let r := acquisition_loop ins (loop_entry e rslt) in
  occurrences is_exit (trace r) = 0%nat /\ forall status, outcome r <> Exit status.
Proof.
  intros r.
  destruct (acquisition_loop_from ins (loop_entry e rslt)) as [He Hr];
    [cbn; lia | cbn; lia |].
  fold r in He, Hr. split; [exact He|].
  intros status Hs. rewrite Hs in Hr. exact Hr.
Qed.

(** What is not an event of the loop does not occur in a trace of loop
    events. *)
Lemma occurrences_none (p : event -> bool) (t : list event) :
  (forall e, is_loop_event e = true -> p e = false) ->
  forallb is_loop_event t = true -> occurrences p t = 0%nat.
Proof.
  intros Hp. induction t as [|e t IH]; [reflexivity|].
  cbn. intros [He Ht]%andb_prop. rewrite (Hp e He), (IH Ht). reflexivity.
Qed.

(** C3, as amended.  [set_feature_config] runs its three stages in order
    (batched read of the seven slots, batched write, enabling the alternate
    configuration control for accel and gyro with ``no reset on switch'')
    and a stage that fails ends the sequence: after a failed read there is
    no write and no enabling, after a failed write there is no enabling.
    The failure is printed and is not fatal: [set_feature_config] returns
    to [main], which goes on as after a success: it selects the sensors,
    reads and writes the pin configuration, maps the interrupts, attaches
    the two callbacks, prints its two lines and runs the acquisition loop
    with the variables it always enters it with; it never calls [exit],
    and it closes the interface and returns [EXIT_SUCCESS] when the loop
    is left. *)
Theorem config_failure_ends_sequence_not_session (e : setup_env) (ins : list iter_env) :
  outcome (set_feature_config e) = Done tt /\
  (code (r_get_sensor_config e) <> BMI323_OK ->
     trace (set_feature_config e) = stage_get e) /\
  (code (r_get_sensor_config e) = BMI323_OK ->
   r_set_sensor_config e <> BMI323_OK ->
     trace (set_feature_config e) = stage_get e ++ stage_set e) /\
  (code (r_get_sensor_config e) = BMI323_OK ->
   r_set_sensor_config e = BMI323_OK ->
     trace (set_feature_config e) = stage_get e ++ stage_set e ++ stage_enable e) /\
  (code (r_init e) = BMI323_OK ->
     (exists before after,
        trace (main e ins) =
          before ++ trace (set_feature_config e) ++ select_sensor_call :: after) /\
     occurrences is_exit (trace (main e ins)) = 0%nat /\
     (outcome (main e ins) = Done EXIT_SUCCESS \/ outcome (main e ins) = Running) /\
     let loop := acquisition_loop ins (loop_entry e (r_map_interrupt e)) in
     trace (main e ins) =
       setup_head e ++ trace (set_feature_config e) ++ setup_tail e ++
       trace loop ++
       match outcome loop with
       | Done _ => [Call_coines_close_comm_intf COINES_COMM_INTF_USB]
       | _ => []
       end /\
     outcome (main e ins) =
       match outcome loop with
       | Done _ => Done EXIT_SUCCESS
       | Exit status => Exit status
       | Running => Running
       end).
Proof.
  pose proof (set_feature_config_run e) as Hrun.
  split; [rewrite Hrun; reflexivity|]. split; [|split; [|split]].
  - intros Hg. rewrite Hrun. cbn [trace].
    destruct (decide _); [contradiction|]. apply app_nil_r.
  - intros Hg Hs. rewrite Hrun. cbn [trace].
    destruct (decide _); [|contradiction].
    destruct (decide _); [contradiction|]. rewrite app_nil_r. reflexivity.
  - intros Hg Hs. rewrite Hrun. cbn [trace].
    destruct (decide _); [|contradiction].
    destruct (decide _); [|contradiction]. reflexivity.
  - clear Hrun. intros Hi.
    destruct (main_init_success e ins Hi) as (before & between & Ht & Hb & Hbw & Ho).
    destruct (main_loop_no_exit e ins (r_map_interrupt e)) as [Hle Hlo].
    cbn zeta in Hle, Hlo.
    split; [|split; [|split]].
    + exists before. eexists. rewrite Ht. reflexivity.
    + rewrite Ht.
      change (?a ++ ?b ++ ?c :: ?d) with (a ++ b ++ [c] ++ d).
      rewrite !occurrences_app, Hb, Hbw, Hle, set_feature_config_no_exit.
      destruct (outcome (acquisition_loop _ _)); reflexivity.
    + rewrite Ho.
      destruct (outcome (acquisition_loop _ _)) as [s' | st |] eqn:Hloop;
        [left; reflexivity | exfalso; exact (Hlo st eq_refl) | right; reflexivity].
    + cbn zeta. rewrite (main_run e ins Hi). cbn zeta. split; reflexivity.
Qed.

(** C8.  A run of the program that comes to an end ends with a status: the
    success status [EXIT_SUCCESS], returned by [main], when the chip
    initialised, and the failure status [COINES_E_FAILURE], handed to
    [exit], when it did not; the two differ as soon as the headers give the
    two macros different values.  Whatever else fails, the status is the
    success status. *)
Theorem main_exit_status (e : setup_env) (ins : list iter_env) :
  COINES_E_FAILURE <> EXIT_SUCCESS ->
  outcome (main e ins) <> Running ->
  exists status, exit_status (outcome (main e ins)) = Some status /\
    (code (r_init e) = BMI323_OK ->
       outcome (main e ins) = Done EXIT_SUCCESS /\ status = EXIT_SUCCESS) /\
    (code (r_init e) <> BMI323_OK ->
       outcome (main e ins) = Exit COINES_E_FAILURE /\
       status = COINES_E_FAILURE /\ status <> EXIT_SUCCESS).
Proof.
  intros Hdistinct Hcomplete.
  destruct (decide (code (r_init e) = BMI323_OK)) as [Hi | Hi].
  - destruct (main_init_success e ins Hi) as (_ & _ & _ & _ & _ & Ho).
    destruct (main_loop_no_exit e ins (r_map_interrupt e)) as [_ Hlo].
    cbn zeta in Hlo.
    destruct (outcome (acquisition_loop _ _)) as [s' | st |] eqn:Hloop.
    + exists EXIT_SUCCESS. rewrite Ho. cbn. split; [reflexivity|].
      split; [intros _; split; reflexivity | intros Hn; contradiction].
    + exfalso. exact (Hlo st eq_refl).
    + contradiction.
  - rewrite (main_init_failure e ins Hi) in *. cbn [outcome exit_status].
    exists COINES_E_FAILURE. split; [reflexivity|].
    split; [intros Hy; contradiction | intros _; auto].
Qed.

(** The program does come to an end: at once when the chip does not
    initialise, and otherwise as soon as the environment holds five
    any-motion events. *)
Lemma main_completes (e : setup_env) (ins : list iter_env) :
  code (r_init e) <> BMI323_OK \/
  5 <= any_motion_events
         (trace (passes ins (loop_entry e (r_map_interrupt e)))) ->
  outcome (main e ins) <> Running.
Proof.
  intros [Hi | Hev].
  - rewrite (main_init_failure e ins Hi). discriminate.
  - destruct (decide (code (r_init e) = BMI323_OK)) as [Hi | Hi];
      [|rewrite (main_init_failure e ins Hi); discriminate].
    destruct (main_init_success e ins Hi) as (_ & _ & _ & _ & _ & Ho).
    rewrite Ho.
    destruct (acquisition_loop_from ins (loop_entry e (r_map_interrupt e)))
      as [_ Hr]; [cbn; lia | cbn; lia |].
    cbn zeta in Hr.
    destruct (outcome (acquisition_loop _ _)); [discriminate | contradiction |].
    destruct Hr as [Hn Ht]. rewrite Ht in Hn. cbn in Hn. lia.
Qed.

End SetupClaims.

Section Selector.
Context `{Headers}.

Lemma cfg_assign_lookup_eq (i : nat) (f : string) (v : Z)
    (config : list bmi323_sens_config) (c : bmi323_sens_config) :
  config !! i = Some c ->
  cfg_assign i f v config !! i = Some (SensConfig (cfg_type c) (<[f := v]> (cfg c))).
Proof. intros Hc. unfold cfg_assign. rewrite list_lookup_alter_eq, Hc. reflexivity. Qed.

Lemma cfg_assign_lookup_ne (i j : nat) (f : string) (v : Z)
    (config : list bmi323_sens_config) :
  i <> j -> cfg_assign i f v config !! j = config !! j.
Proof. intros Hne. unfold cfg_assign. apply list_lookup_alter_ne, Hne. Qed.








End Selector.

(** *** The set-up properties at concrete environments *)


(** C3, as stated, fails: the batched read of the configuration fails, and
    the session goes on to the acquisition loop, which counts its five
    any-motion events, and the program ends with the success status. *)
Lemma config_failure_not_fatal_counterexample :
  code (r_get_sensor_config setup_get_config_fails) <> @BMI323_OK vendor_headers /\
  outcome (@main vendor_headers setup_get_config_fails five_motions)
  = Done (@EXIT_SUCCESS vendor_headers) /\
  any_motion_events (trace (@main vendor_headers setup_get_config_fails five_motions))
  = 5 /\
  occurrences is_exit
    (trace (@main vendor_headers setup_get_config_fails five_motions)) = 0%nat.
Proof. split; [discriminate|]. vm_compute. repeat split. Qed.

Lemma config_failure_ends_sequence_not_session_witness :
  r_set_sensor_config setup_set_config_fails <> @BMI323_OK vendor_headers /\
  trace (@set_feature_config vendor_headers setup_set_config_fails) =
    @stage_get vendor_headers setup_set_config_fails ++
    @stage_set vendor_headers setup_set_config_fails /\
  outcome (@main vendor_headers setup_set_config_fails five_motions)
  = Done (@EXIT_SUCCESS vendor_headers).
Proof.
  assert (Hs : r_set_sensor_config setup_set_config_fails <> @BMI323_OK vendor_headers)
    by discriminate.
  split; [exact Hs|].
  destruct (@config_failure_ends_sequence_not_session vendor_headers
              setup_set_config_fails five_motions)
    as (_ & _ & Hset & _ & Hmain).
  split; [exact (Hset eq_refl Hs)|].
  exact (proj2 (proj2 (proj2 (proj2 (Hmain eq_refl))))).
Defined.

Lemma main_exit_status_witness :
  (exists status,
     exit_status (outcome (@main vendor_headers setup_ok five_motions)) = Some status /\
     status = 0) /\
  (exists status,
     exit_status (outcome (@main vendor_headers setup_init_fails five_motions))
     = Some status /\
     status = -1).
Proof.
  assert (Hd : @COINES_E_FAILURE vendor_headers <> @EXIT_SUCCESS vendor_headers)
    by discriminate.
  split.
  - destruct (@main_exit_status vendor_headers setup_ok five_motions Hd)
      as (status & Hst & Hok & _).
    + vm_compute. discriminate.
    + exists status. split; [exact Hst|]. exact (proj2 (Hok eq_refl)).
  - destruct (@main_exit_status vendor_headers setup_init_fails five_motions Hd)
      as (status & Hst & _ & Hfail).
    + vm_compute. discriminate.
    + exists status. split; [exact Hst|].
      refine (proj1 (proj2 (Hfail _))). discriminate.
Defined.

(** ** Further properties of the set-up phase *)


Section LoopEvents.
Context `{Headers}.

Lemma loop_no_setup_calls (ins : list iter_env) (s : vars) :
  occurrences is_close_comm (trace (acquisition_loop ins s)) = 0%nat /\
  occurrences is_attach (trace (acquisition_loop ins s)) = 0%nat /\
  occurrences is_config_call (trace (acquisition_loop ins s)) = 0%nat.
Proof.
  pose proof (acquisition_loop_events ins s) as Hev.
  repeat split; apply occurrences_none; try exact Hev;
    intros [] He; try reflexivity; discriminate He.
Qed.

Lemma set_feature_config_occurrences (e : setup_env) :
  occurrences is_close_comm (trace (set_feature_config e)) = 0%nat /\
  occurrences is_attach (trace (set_feature_config e)) = 0%nat /\
  any_motion_events (trace (set_feature_config e)) = 0.
Proof.
  rewrite set_feature_config_run. cbn [trace].
  destruct (decide (code (r_get_sensor_config e) = BMI323_OK));
    destruct (decide (r_set_sensor_config e = BMI323_OK)); repeat split.
Qed.


(** X2.  When the chip initialises, [main] attaches its two callbacks
    exactly once each, before the loop, and never calls [exit]; it closes
    the communication interface exactly when the loop is left: once, as
    the last thing it does before it returns [EXIT_SUCCESS], and not at all
    while the loop runs. *)
Theorem comm_closed_once_on_return (e : setup_env) (ins : list iter_env) :
  code (r_init e) = BMI323_OK ->
  let t := trace (main e ins) in
  occurrences is_attach t = 2%nat /\
  (outcome (main e ins) = Running -> occurrences is_close_comm t = 0%nat) /\
  (forall status, outcome (main e ins) = Done status ->
     status = EXIT_SUCCESS /\
     occurrences is_close_comm t = 1%nat /\
     last t = Some (Call_coines_close_comm_intf COINES_COMM_INTF_USB)).
Proof.
  intros Hinit t. subst t. rewrite (main_run e ins Hinit). cbn zeta.
  destruct (loop_no_setup_calls ins (loop_entry e (r_map_interrupt e)))
    as (Hlc & Hla & _).
  destruct (set_feature_config_occurrences e) as (Hcc & Hca & _).
  cbn [trace outcome]. rewrite !occurrences_app, Hlc, Hla, Hcc, Hca.
  destruct (outcome (acquisition_loop ins _)) as [s1 | st |];
    (split; [reflexivity|]); (split; [intros Ho; try discriminate Ho; reflexivity|]);
    intros status Ho; try discriminate Ho.
  injection Ho as <-. split; [reflexivity|]. split; [reflexivity|].
  rewrite !app_assoc. apply last_snoc.
Qed.

End LoopEvents.

Section ResultCodes.
Context `{Headers}.

Lemma same_but_rslt_fields (s s' : vars) :
  same_but_rslt s s' ->
  count s = count s' /\ limit s = limit s' /\
  drdy_int_status s = drdy_int_status s' /\
  feat_int_status s = feat_int_status s'.
Proof.
  unfold same_but_rslt. destruct s, s'. cbn. intros [= -> -> -> -> -> -> -> -> ->].
  auto.
Qed.

Lemma interrupts_same_but_rslt (ed : edges) (s s' : vars) :
  same_but_rslt s s' -> same_but_rslt (interrupts ed s) (interrupts ed s').
Proof.
  unfold same_but_rslt, interrupts. destruct s, s'. cbn.
  intros [= -> -> -> -> -> -> -> -> ->].
  destruct (drdy_edge ed), (feat_edge ed); reflexivity.
Qed.

Lemma drdy_branch_same_but_rslt (i : iter_env) (s s' : vars) :
  same_but_rslt s s' ->
  trace (drdy_branch i s) = trace (drdy_branch i s') /\
  exists s1 s1', outcome (drdy_branch i s) = Done s1 /\
    outcome (drdy_branch i s') = Done s1' /\ same_but_rslt s1 s1'.
Proof.
  unfold same_but_rslt. destruct s, s'. cbn.
  intros [= -> -> -> -> -> -> -> -> ->].
  unfold drdy_branch, report_accel, report_gyro, store_drdy_int_status,
    bmi323_get_int1_status, bmi323_get_sensor_data,
    bmi323_error_codes_print_result, printf.
  cbn [drdy_int_status]. destruct drdy_int_status1; run.
  - destruct (bit_test _ BMI323_INT_STATUS_ACC_DRDY); run;
      destruct (bit_test _ BMI323_INT_STATUS_GYR_DRDY); run;
      (split; [reflexivity|]); eexists _, _; repeat split.
  - split; [reflexivity|]. eexists _, _; repeat split.
Qed.

Lemma feat_branch_same_but_rslt (i : iter_env) (s s' : vars) :
  same_but_rslt s s' ->
  trace (feat_branch i s) = trace (feat_branch i s') /\
  exists s1 s1', outcome (feat_branch i s) = Done s1 /\
    outcome (feat_branch i s') = Done s1' /\ same_but_rslt s1 s1'.
Proof.
  unfold same_but_rslt. destruct s, s'. cbn.
  intros [= -> -> -> -> -> -> -> -> ->].
  unfold feat_branch, report_any_motion, report_no_motion, report_alt_status,
    store_feat_int_status, bmi323_get_int2_status, bmi323_read_alternate_status,
    bmi323_error_codes_print_result, printf.
  cbn [feat_int_status]. destruct feat_int_status1; run.
  - destruct (bit_test _ BMI323_INT_STATUS_ANY_MOTION); run;
      destruct (bit_test _ BMI323_INT_STATUS_NO_MOTION); run;
      (split; [reflexivity|]); eexists _, _; repeat split.
  - split; [reflexivity|]. eexists _, _; repeat split.
Qed.

Lemma loop_body_same_but_rslt (i : iter_env) (s s' : vars) :
  same_but_rslt s s' ->
  trace (loop_body i s) = trace (loop_body i s') /\
  exists s1 s1', outcome (loop_body i s) = Done s1 /\
    outcome (loop_body i s') = Done s1' /\ same_but_rslt s1 s1'.
Proof.
  intros Hs. unfold loop_body.
  pose proof (interrupts_same_but_rslt (irq_top i) s s' Hs) as Htop.
  destruct (drdy_branch_same_but_rslt i _ _ Htop) as (Ht & s1 & s1' & Ho & Ho' & Hs1).
  rewrite (bind_done _ _ _ Ho), (bind_done _ _ _ Ho'). cbn [trace outcome].
  pose proof (interrupts_same_but_rslt (irq_mid i) s1 s1' Hs1) as Hmid.
  destruct (feat_branch_same_but_rslt i _ _ Hmid) as (Ht2 & s2 & s2' & Ho2 & Ho2' & Hs2).
  rewrite Ht, Ht2. split; [reflexivity|]. exists s2, s2'. auto.
Qed.

(** The loop makes no use of what [rslt] holds when it is entered. *)
Lemma acquisition_loop_same_but_rslt (ins : list iter_env) :
  forall s s', same_but_rslt s s' ->
    trace (acquisition_loop ins s) = trace (acquisition_loop ins s') /\
    match outcome (acquisition_loop ins s), outcome (acquisition_loop ins s') with
    | Done s1, Done s1' => same_but_rslt s1 s1'
    | Running, Running => True
    | _, _ => False
    end.
Proof.
  induction ins as [|i ins IH]; intros s s' Hs; [split; reflexivity|].
  destruct (loop_body_same_but_rslt i s s' Hs) as (Ht & s1 & s1' & Ho & Ho' & Hs1).
  rewrite (acquisition_loop_cons i ins s s1 Ho), (acquisition_loop_cons i ins s' s1' Ho').
  destruct (same_but_rslt_fields s1 s1' Hs1) as (Hc & Hl & _).
  rewrite <- Hc, <- Hl, <- Ht.
  destruct (decide (count s1 = limit s1)); cbn [trace outcome].
  - split; [reflexivity | exact Hs1].
  - destruct (IH s1 s1' Hs1) as [Ht' Ho'']. rewrite Ht'. split; [reflexivity | exact Ho''].
Qed.

Lemma setup_parts_without_codes (c : Z) (e : setup_env) :
  map blank_unchecked_code (setup_head (with_setup_codes c e)) =
  map blank_unchecked_code (setup_head e) /\
  map blank_unchecked_code (setup_tail (with_setup_codes c e)) =
  map blank_unchecked_code (setup_tail e) /\
  map blank_unchecked_code (trace (set_feature_config (with_setup_codes c e))) =
  map blank_unchecked_code (trace (set_feature_config e)).
Proof.
  split; [reflexivity|]. split; [reflexivity|].
  rewrite !set_feature_config_run. cbn [trace].
  change (code (r_get_sensor_config (with_setup_codes c e)))
    with (code (r_get_sensor_config e)).
  change (r_set_sensor_config (with_setup_codes c e)) with (r_set_sensor_config e).
  destruct (decide (code (r_get_sensor_config e) = BMI323_OK));
    destruct (decide (r_set_sensor_config e = BMI323_OK)); reflexivity.
Qed.

(** X3.  Of all the result codes of the set-up phase, only three are acted
    on: that of [bmi323_init] and, within [set_feature_config], those of
    the batched read and write.  The codes of the interface
    initialisation, of the alternate configuration control, of
    [bmi323_select_sensor], of the three pin configuration calls and of
    [bmi323_map_interrupt] are printed and nothing else: with any other
    value for them the trace is the same event for event (the same calls
    with the same arguments, the same lines, the result lines of every
    other call with the same codes), but for the code shown in the result
    lines of these very calls, and the program ends the same way. *)
Theorem unchecked_result_codes_only_printed
    (c : Z) (e : setup_env) (ins : list iter_env) :
  map blank_unchecked_code (trace (main (with_setup_codes c e) ins)) =
  map blank_unchecked_code (trace (main e ins)) /\
  length (trace (main (with_setup_codes c e) ins)) = length (trace (main e ins)) /\
  outcome (main (with_setup_codes c e) ins) = outcome (main e ins).
Proof.
  assert (Hmap : map blank_unchecked_code (trace (main (with_setup_codes c e) ins)) =
                 map blank_unchecked_code (trace (main e ins)) /\
                 outcome (main (with_setup_codes c e) ins) = outcome (main e ins)).
  { destruct (decide (code (r_init e) = BMI323_OK)) as [Hi | Hi].
    - rewrite (main_run e ins Hi), (main_run (with_setup_codes c e) ins Hi).
      cbn [trace outcome].
      destruct (setup_parts_without_codes c e) as (Hhead & Htail & Hcfg).
      destruct (acquisition_loop_same_but_rslt ins
                  (loop_entry (with_setup_codes c e)
                     (r_map_interrupt (with_setup_codes c e)))
                  (loop_entry e (r_map_interrupt e))) as [Ht Ho]; [reflexivity|].
      rewrite Ht.
      destruct (outcome (acquisition_loop ins (loop_entry (with_setup_codes c e) _)));
        destruct (outcome (acquisition_loop ins (loop_entry e _)));
        try contradiction; (split; [|reflexivity]);
        rewrite !map_app, Hhead, Htail, Hcfg; reflexivity.
    - rewrite (main_init_failure e ins Hi),
        (main_init_failure (with_setup_codes c e) ins Hi).
      split; reflexivity. }
  destruct Hmap as [Hm Ho]. split; [exact Hm|]. split; [|exact Ho].
  rewrite <- (length_map blank_unchecked_code (trace (main (with_setup_codes c e) ins))),
    <- (length_map blank_unchecked_code (trace (main e ins))), Hm.
  reflexivity.
Qed.

End ResultCodes.

(** ** Further properties of one pass and of consecutive passes *)

Section Edges.
Context `{Headers}.

Lemma drdy_flag_at_drdy_test (i : iter_env) (s : vars) :
  drdy_int_status (at_drdy_test i s) = drdy_int_status s || drdy_edge (irq_top i).
Proof.
  unfold at_drdy_test, interrupts.
  destruct (drdy_edge (irq_top i)), (feat_edge (irq_top i)), (drdy_int_status s) eqn:Hf;
    cbn; auto.
Qed.

Lemma feat_flag_from_edges (i : iter_env) (s : vars) :
  feat_int_status (at_feat_test i s) =
  feat_int_status s || feat_edge (irq_top i) || feat_edge (irq_mid i).
Proof.
  rewrite feat_flag_at_feat_test. unfold at_drdy_test, interrupts.
  destruct (drdy_edge (irq_top i)), (feat_edge (irq_top i)),
    (drdy_edge (irq_mid i)), (feat_edge (irq_mid i)), (feat_int_status s) eqn:Hf;
    cbn; auto.
Qed.

(** The flags and the status reads of one pass, from what the pass was
    given. *)
Lemma pass_flags (i : iter_env) (s : vars) :
  let t := trace (loop_body i s) in
  occurrences is_int1_read t =
    Nat.b2n (drdy_int_status s || drdy_edge (irq_top i)) /\
  occurrences is_int2_read t =
    Nat.b2n (feat_int_status s || feat_edge (irq_top i) || feat_edge (irq_mid i)) /\
  exists s', outcome (loop_body i s) = Done s' /\
    feat_int_status s' = false /\
    drdy_int_status s' = drdy_edge (irq_mid i).
Proof.
  intros t. subst t. rewrite loop_body_branches. cbn [trace outcome].
  destruct (drdy_branch_occurrences i (at_drdy_test i s)) as (_ & Hd2 & _ & Hd4).
  destruct (feat_branch_occurrences i (at_feat_test i s)) as (_ & Hf2 & _ & Hf4).
  cbn zeta in Hd2, Hf2.
  rewrite !occurrences_app, Hd2, Hd4, Hf2, Hf4.
  rewrite drdy_flag_at_drdy_test, feat_flag_from_edges.
  split; [destruct (_ || _); reflexivity|].
  split; [destruct (_ || _); reflexivity|].
  destruct (feat_branch_done i (at_feat_test i s)) as (s' & Hs' & Hf & Hd & _).
  exists s'. split; [exact Hs'|]. split; [exact Hf|].
  rewrite Hd. apply drdy_flag_at_feat_test.
Qed.

(** X4.  Edges coalesce.  A pass reads the status-1 word once if the
    data-ready flag was set when the pass began or a data-ready edge
    arrived before its data-ready test, and not at all otherwise; it reads
    the status-2 word once if the feature flag was set when the pass began
    or a feature edge arrived before its feature test, and not at all
    otherwise.  However many of these there were, they are served as one
    event: one store of 0, one status read. *)
Theorem edges_coalesce_within_a_pass (i : iter_env) (s : vars) :
  let t := trace (loop_body i s) in
  let drdy := drdy_int_status s || drdy_edge (irq_top i) in
  let feat := feat_int_status s || feat_edge (irq_top i) || feat_edge (irq_mid i) in
  occurrences is_int1_read t = Nat.b2n drdy /\
  occurrences is_store_drdy t = Nat.b2n drdy /\
  occurrences is_int2_read t = Nat.b2n feat /\
  occurrences is_store_feat t = Nat.b2n feat.
Proof.
  intros t drdy feat. subst t. rewrite loop_body_branches. cbn [trace].
  destruct (drdy_branch_occurrences i (at_drdy_test i s)) as (Hd1 & Hd2 & Hd3 & Hd4).
  destruct (feat_branch_occurrences i (at_feat_test i s)) as (Hf1 & Hf2 & Hf3 & Hf4).
  cbn zeta in Hd1, Hd2, Hf1, Hf2.
  rewrite !occurrences_app, Hd1, Hd2, Hd3, Hd4, Hf1, Hf2, Hf3, Hf4.
  rewrite drdy_flag_at_drdy_test, feat_flag_from_edges. fold drdy feat.
  destruct drdy, feat; repeat split.
Qed.


End Edges.


Section FailedReads.
Context `{Headers}.

(** X6.  The result of the status-2 read is printed but not looked at
    before the word is used.  When that read stores nothing, the feature
    branch dispatches on what [feat_int] held before, the word of an
    earlier pass (or, in the first pass, whatever the uninitialised local
    holds): if that word has the any-motion bit, the any-motion line is
    printed and the counter goes up again. *)
Theorem failed_status2_read_reuses_previous_word (i : iter_env) (s : vars) :
  feat_int_status s = true ->
  out (r_get_int2_status i) = None ->
  let any := bit_test (feat_int s) BMI323_INT_STATUS_ANY_MOTION in
  let no := bit_test (feat_int s) BMI323_INT_STATUS_NO_MOTION in
  any_motion_events (trace (feat_branch i s)) = (if any then 1 else 0) /\
  occurrences is_alt_status_read (trace (feat_branch i s)) =
    (Nat.b2n any + Nat.b2n no)%nat /\
  exists s', outcome (feat_branch i s) = Done s' /\
    feat_int s' = feat_int s /\
    count s' = (if any then uint8 (count s + 1) else count s).
Proof.
  intros Hf Hout any no. subst any no.
  unfold any_motion_events.
  unfold feat_branch, report_any_motion, report_no_motion, report_alt_status,
    store_feat_int_status, bmi323_get_int2_status, bmi323_read_alternate_status,
    bmi323_error_codes_print_result, printf.
  rewrite Hf. run. unfold stored. rewrite Hout. cbn [default].
  destruct (bit_test (feat_int s) BMI323_INT_STATUS_ANY_MOTION); run;
    destruct (bit_test (feat_int s) BMI323_INT_STATUS_NO_MOTION); run;
    (split; [reflexivity|]); (split; [reflexivity|]);
    eexists; (split; [reflexivity|]); split; reflexivity.
Qed.


(** X8.  The result code of [bmi323_read_alternate_status] is assigned to
    [rslt] and then dropped: whatever codes its two calls return, the
    branch makes the same calls, prints the same lines, and leaves the
    same variables but for [rslt]. *)
Theorem alt_status_result_code_dropped
    (c_any c_no : Z) (i : iter_env) (s : vars) :
  trace (feat_branch (with_alt_status_codes c_any c_no i) s) =
  trace (feat_branch i s) /\
  exists s1 s2,
    outcome (feat_branch (with_alt_status_codes c_any c_no i) s) = Done s1 /\
    outcome (feat_branch i s) = Done s2 /\
    same_but_rslt s1 s2.
Proof.
  unfold feat_branch, report_any_motion, report_no_motion, report_alt_status,
    store_feat_int_status, bmi323_get_int2_status, bmi323_read_alternate_status,
    bmi323_error_codes_print_result, printf, with_alt_status_codes.
  destruct (feat_int_status s); run.
  - destruct (bit_test _ BMI323_INT_STATUS_ANY_MOTION); run;
      destruct (bit_test _ BMI323_INT_STATUS_NO_MOTION); run;
      (split; [reflexivity|]); eexists _, _; repeat split.
  - split; [reflexivity|]. eexists _, _; repeat split.
Qed.

(** X9.  A feature event whose status-2 word has neither motion bit (a
    spurious edge, or the bit of another feature) is used up silently: the
    flag is cleared and the word is read, nothing else is called or
    printed, the counter stays, and [alt_status] is left zeroed. *)
Theorem feature_event_without_motion_bits (i : iter_env) (s : vars) :
  feat_int_status s = true ->
  let w := stored (feat_int s) (r_get_int2_status i) in
  bit_test w BMI323_INT_STATUS_ANY_MOTION = false ->
  bit_test w BMI323_INT_STATUS_NO_MOTION = false ->
  trace (feat_branch i s) =
    [ Store_feat_int_status false;
      Call_bmi323_get_int2_status;
      Call_bmi323_error_codes_print_result "Read interrupt status"
                                           (code (r_get_int2_status i)) ] /\
  exists s', outcome (feat_branch i s) = Done s' /\
    count s' = count s /\
    feat_int_status s' = false /\
    alt_status s' = AltStatus 0 0.
Proof.
  intros Hf w Ha Hn. split.
  - rewrite (feat_branch_pending i s Hf). cbn zeta. fold w. rewrite Ha, Hn.
    reflexivity.
  - destruct (feat_branch_pending_done i s Hf)
      as (s' & Hs' & Hflag & _ & Hc & _ & Halt & _).
    cbn zeta in Hc. fold w in Hc. rewrite Ha in Hc.
    unfold alt_after_no, alt_after_any in Halt. fold w in Halt.
    rewrite Ha, Hn in Halt.
    exists s'. auto.
Qed.

End FailedReads.

Lemma failed_status2_read_reuses_previous_word_witness :
  exists s1 s2,
    outcome (@loop_body vendor_headers any_motion_pass (some_vars false false 5 0))
    = Done s1 /\
    outcome (@feat_branch vendor_headers failing_pass
               (interrupts (irq_top failing_pass) s1)) = Done s2 /\
    count s1 = 1 /\ count s2 = 2.
Proof.
  eexists.
  destruct (@failed_status2_read_reuses_previous_word vendor_headers failing_pass
              (interrupts (irq_top failing_pass)
                 (final (some_vars false false 5 0)
                    (@loop_body vendor_headers any_motion_pass
                       (some_vars false false 5 0))))
              eq_refl eq_refl) as (_ & _ & s2 & Hs2 & _ & Hc).
  exists s2. split; [reflexivity|]. split; [exact Hs2|].
  split; [reflexivity | exact Hc].
Defined.


Lemma feature_event_without_motion_bits_witness :
  feat_int_status (some_vars false true 5 3) = true /\
  exists s',
    outcome (@feat_branch vendor_headers quiet_pass (some_vars false true 5 3))
    = Done s' /\ count s' = 3.
Proof.
  split; [reflexivity|].
  destruct (@feature_event_without_motion_bits vendor_headers
              quiet_pass (some_vars false true 5 3)
              eq_refl eq_refl eq_refl) as (_ & s' & Hs' & Hc & _).
  exists s'. split; [exact Hs' | exact Hc].
Defined.

(** ** Further properties of the configuration and of the loop *)

Section ConfigFrame.
Context `{Headers}.

Lemma keeps_id (j : nat) (f : string) : keeps j f (fun config => config).
Proof. intros config c Hc. exists c. auto. Qed.

Lemma keeps_cfg_assign (j : nat) (f : string) (i : nat) (g : string) (v : Z)
    (F : list bmi323_sens_config -> list bmi323_sens_config) :
  (i, g) <> (j, f) -> keeps j f F ->
  keeps j f (fun config => cfg_assign i g v (F config)).
Proof.
  intros Hne HF config c Hc.
  destruct (HF config c Hc) as (c1 & Hc1 & Hty & Hf).
  destruct (decide (i = j)) as [-> | Hij].
  - rewrite (cfg_assign_lookup_eq j g v _ c1 Hc1).
    eexists. split; [reflexivity|]. cbn [cfg_type cfg]. split; [exact Hty|].
    rewrite lookup_insert_ne by congruence. exact Hf.
  - rewrite (cfg_assign_lookup_ne i j g v _ Hij). exists c1. auto.
Qed.

(** X10.  [set_feature_config] is a read-modify-write of the seven slots:
    between the batched read and the batched write it changes the eighteen
    members it assigns and nothing else.  Every slot keeps its type, the
    array keeps its length, and a member the example does not assign goes
    back to the sensor with the value that was read. *)
Theorem config_settings_keeps_other_members
    (config : list bmi323_sens_config) (j : nat) (f : string)
    (c : bmi323_sens_config) :
  config !! j = Some c ->
  ~ In (j, f) assigned_fields ->
  length (config_settings config) = length config /\
  exists c', config_settings config !! j = Some c' /\
    cfg_type c' = cfg_type c /\
    cfg c' !! f = cfg c !! f.
Proof.
  intros Hc Hnot. split.
  - unfold config_settings, assign_switch_sources, cfg_assign.
    rewrite !length_alter. reflexivity.
  - revert config c Hc.
    change (keeps j f (fun config => config_settings config)).
    unfold config_settings, assign_switch_sources.
    repeat (apply keeps_cfg_assign;
            [intros [= <- <-]; apply Hnot; cbn; tauto|]).
    apply keeps_id.
Qed.

End ConfigFrame.

Lemma config_settings_keeps_other_members_witness :
  exists c',
    @config_settings vendor_headers fetched_with_range !! 0%nat = Some c' /\
    cfg_type c' = 0 /\ cfg c' !! "acc.range" = Some 2.
Proof.
  refine (proj2 (@config_settings_keeps_other_members vendor_headers
                   fetched_with_range 0%nat "acc.range"
                   (SensConfig 0 {[ "acc.range" := 2 ]}) eq_refl _)).
  cbn. intros Hin. repeat (destruct Hin as [Hin | Hin]; [discriminate Hin|]).
  exact Hin.
Defined.

Section LoopExtras.
Context `{Headers}.

(** X11.  In the loop of [main] the 8-bit counter never wraps and never
    passes the limit: whenever a pass starts, the limit is 5 and the
    counter is below it, and the pass leaves the limit alone and the
    counter where it was or one higher. *)
Theorem counter_bounded_in_main_loop (e : setup_env) (s : vars) (i : iter_env) :
  in_loop e s ->
  limit s = 5 /\ 0 <= count s < 5 /\
  exists s', outcome (loop_body i s) = Done s' /\
    limit s' = 5 /\ count s <= count s' <= count s + 1.
Proof.
  intros Hin. destruct (in_loop_invariant e s Hin) as (_ & Hl & Hc).
  split; [exact Hl|]. split; [exact Hc|].
  destruct (loop_body_step i s) as (_ & s' & Hs' & Hl' & Hstep).
  exists s'. split; [exact Hs'|]. split; [congruence|].
  destruct Hstep as [[_ ->] | [_ ->]]; [lia|].
  rewrite uint8_succ by lia. lia.
Qed.

Lemma setup_parts_quiet (e : setup_env) :
  any_motion_events (setup_head e) = 0 /\ any_motion_events (setup_tail e) = 0.
Proof. split; reflexivity. Qed.

(** X12.  Once the chip has initialised, nothing but the any-motion events
    decides when the program ends: whatever the other calls of the set-up
    phase and of the loop return, [main] returns [EXIT_SUCCESS] as soon as
    the environment holds five any-motion events, and its trace then shows
    exactly five. *)
Theorem main_returns_after_five_events (e : setup_env) (ins : list iter_env) :
  code (r_init e) = BMI323_OK ->
  5 <= any_motion_events (trace (passes ins (loop_entry e (r_map_interrupt e)))) ->
  outcome (main e ins) = Done EXIT_SUCCESS /\
  any_motion_events (trace (main e ins)) = 5.
Proof.
  intros Hi Hev. rewrite (main_run e ins Hi). cbn zeta. cbn [trace outcome].
  destruct (acquisition_loop_from ins (loop_entry e (r_map_interrupt e)))
    as [_ Hr]; [cbn; lia | cbn; lia |].
  cbn zeta in Hr.
  destruct (setup_parts_quiet e) as [Hh Ht].
  destruct (set_feature_config_occurrences e) as (_ & _ & Hc).
  rewrite !any_motion_events_app, Hh, Ht, Hc.
  destruct (outcome (acquisition_loop ins _)) as [s1 | st |];
    [| contradiction |].
  - destruct Hr as (Hn & _). cbn in Hn. split; [reflexivity|].
    change (any_motion_events [Call_coines_close_comm_intf COINES_COMM_INTF_USB])
      with 0. lia.
  - destruct Hr as [Hn Htr]. rewrite Htr in Hn. cbn in Hn. lia.
Qed.

(** X13.  Once the loop has left, nothing that follows is handled: on a
    longer environment the run is the same.  While it has not left, the
    run on a longer environment goes on from the variables that the passes
    so far have left. *)
Theorem loop_left_ignores_later_environment
    (ins more : list iter_env) (s : vars) :
  match outcome (acquisition_loop ins s) with
  | Done _ => acquisition_loop (ins ++ more) s = acquisition_loop ins s
  | Running =>
      exists s1, outcome (passes ins s) = Done s1 /\
        acquisition_loop (ins ++ more) s =
          Run (trace (acquisition_loop ins s) ++ trace (acquisition_loop more s1))
              (outcome (acquisition_loop more s1))
  | Exit _ => False
  end.
Proof.
  revert s. induction ins as [|i ins IH]; intros s.
  - cbn. exists s. split; [reflexivity|]. destruct (acquisition_loop more s); reflexivity.
  - destruct (loop_body_step i s) as (_ & s1 & Hs1 & _).
    cbn [app].
    rewrite (acquisition_loop_cons i ins s s1 Hs1),
      (acquisition_loop_cons i (ins ++ more) s s1 Hs1),
      (passes_cons i ins s s1 Hs1).
    destruct (decide (count s1 = limit s1)); cbn [trace outcome]; [reflexivity|].
    specialize (IH s1).
    destruct (outcome (acquisition_loop ins s1)) as [s2 | st |] eqn:Ho.
    + rewrite IH, Ho. reflexivity.
    + exact IH.
    + destruct IH as (s2 & Hs2 & Hrun). exists s2. split; [exact Hs2|].
      rewrite Hrun. cbn [trace outcome]. rewrite app_assoc. reflexivity.
Qed.

Lemma loop_body_without_feature (i : iter_env) (s : vars) :
  feat_int_status s = false ->
  feat_edge (irq_top i) = false -> feat_edge (irq_mid i) = false ->
  occurrences is_int2_read (trace (loop_body i s)) = 0%nat /\
  any_motion_events (trace (loop_body i s)) = 0 /\
  exists s', outcome (loop_body i s) = Done s' /\
    feat_int_status s' = false /\ count s' = count s /\ limit s' = limit s.
Proof.
  intros Hf Htop Hmid.
  destruct (pass_flags i s) as (_ & H2 & s' & Hs' & Hf' & _).
  cbn zeta in H2. rewrite Hf, Htop, Hmid in H2. split; [exact H2|].
  assert (Hidle : feat_int_status (at_feat_test i s) = false).
  { rewrite feat_flag_from_edges, Hf, Htop, Hmid. reflexivity. }
  pose proof (loop_body_branches i s) as Hb.
  rewrite (feat_branch_idle i _ Hidle) in Hb. cbn [trace outcome] in Hb.
  destruct (drdy_branch_quiet i (at_drdy_test i s)) as [Hq _].
  rewrite Hb. cbn [trace outcome]. rewrite app_nil_r. split; [exact Hq|].
  destruct (tests_frame i s) as (_ & _ & Hc & _ & Hl).
  eexists. split; [reflexivity|]. rewrite Hidle, Hc, Hl. auto.
Qed.

(** X14.  Without feature interrupts the loop never ends: however many
    passes there are and whatever the data-ready interrupts and the reads
    of the samples do, the loop is still running at the end of the
    environment, it has read no status-2 word and it has counted
    nothing. *)
Theorem loop_runs_on_without_feature_interrupts (ins : list iter_env) :
  forall s : vars,
    feat_int_status s = false ->
    count s <> limit s ->
    Forall (fun i => feat_edge (irq_top i) = false /\ feat_edge (irq_mid i) = false)
           ins ->
    outcome (acquisition_loop ins s) = Running /\
    occurrences is_int2_read (trace (acquisition_loop ins s)) = 0%nat /\
    any_motion_events (trace (acquisition_loop ins s)) = 0.
Proof.
  induction ins as [|i ins IH]; intros s Hf Hne Hall.
  - repeat split.
  - apply Forall_cons in Hall as [[Htop Hmid] Hall].
    destruct (loop_body_without_feature i s Hf Htop Hmid)
      as (H2 & Hev & s1 & Hs1 & Hf1 & Hc1 & Hl1).
    rewrite (acquisition_loop_cons i ins s s1 Hs1).
    destruct (decide (count s1 = limit s1)) as [Heq | Hne1]; [congruence|].
    cbn [trace outcome].
    destruct (IH s1 Hf1 Hne1 Hall) as (Ho & H2' & Hev').
    rewrite occurrences_app, any_motion_events_app, H2, Hev, H2', Hev'.
    split; [exact Ho|]. split; reflexivity.
Qed.

End LoopExtras.

Lemma counter_bounded_in_main_loop_witness :
  exists s',
    outcome (@loop_body vendor_headers any_motion_pass
               (@loop_entry vendor_headers setup_ok 0)) = Done s' /\
    limit s' = 5 /\ 0 <= count s' <= 1.
Proof.
  destruct (@counter_bounded_in_main_loop vendor_headers setup_ok
              (@loop_entry vendor_headers setup_ok 0) any_motion_pass
              (@in_loop_entry vendor_headers setup_ok 0))
    as (_ & _ & s' & Hs' & Hl & Hc).
  exists s'. split; [exact Hs'|]. split; [exact Hl|]. cbn in Hc. lia.
Defined.

Lemma main_returns_after_five_events_witness :
  outcome (@main vendor_headers setup_set_config_fails five_motions)
  = Done (@EXIT_SUCCESS vendor_headers) /\
  any_motion_events (trace (@main vendor_headers setup_set_config_fails five_motions))
  = 5.
Proof.
  apply (@main_returns_after_five_events vendor_headers setup_set_config_fails
           five_motions eq_refl).
  vm_compute. discriminate.
Defined.

Lemma loop_runs_on_without_feature_interrupts_witness :
  outcome (@acquisition_loop vendor_headers
             [data_ready_pass; quiet_pass; late_data_ready_pass; data_ready_pass]
             (some_vars false false 5 0)) = Running.
Proof.
  refine (proj1 (@loop_runs_on_without_feature_interrupts vendor_headers
                   [data_ready_pass; quiet_pass; late_data_ready_pass; data_ready_pass]
                   (some_vars false false 5 0) eq_refl _ _)).
  - cbn. lia.
  - repeat constructor.
Defined.

Section PinConfig.
Context `{Headers}.

Lemma pin_configs_written_app (t1 t2 : list event) :
  pin_configs_written (t1 ++ t2) = pin_configs_written t1 ++ pin_configs_written t2.
Proof.
  induction t1 as [|ev t1 IH]; [reflexivity|].
  destruct ev; cbn; rewrite ?IH; reflexivity.
Qed.

Lemma pin_configs_written_loop (t : list event) :
  forallb is_loop_event t = true -> pin_configs_written t = [].
Proof.
  induction t as [|ev t IH]; [reflexivity|].
  cbn. intros [He Ht]%andb_prop. destruct ev; try discriminate He; exact (IH Ht).
Qed.

Lemma pin_configs_written_config (e : setup_env) :
  pin_configs_written (trace (set_feature_config e)) = [].
Proof.
  rewrite set_feature_config_run. cbn [trace].
  destruct (decide (code (r_get_sensor_config e) = BMI323_OK));
    destruct (decide (r_set_sensor_config e = BMI323_OK)); reflexivity.
Qed.

(** X15.  The pin configuration is a read-modify-write too, and the result
    of the read is not checked.  When the chip has initialised, [main]
    writes the pin configuration exactly twice: first what
    [bmi323_get_int_pin_config] stored (or the zeroed structure, when it
    stored nothing) with the type INT1 and the output and level of the
    first pin set; then the same structure again with the type INT2 and the
    output and level of the second pin set, the settings of the first pin
    still in it.  Every member that [main] does not assign is written as it
    was read, both times. *)
Theorem pin_config_written_twice (e : setup_env) (ins : list iter_env) :
  code (r_init e) = BMI323_OK ->
  let read := stored (∅ : cstruct) (r_get_int_pin_config e) in
  exists first second,
    pin_configs_written (trace (main e ins)) = [first; second] /\
    first !! "pin_type" = Some BMI323_INT1 /\
    second !! "pin_type" = Some BMI323_INT2 /\
    first !! "pin_cfg[0].output_en" = Some BMI323_INT_OUTPUT_ENABLE /\
    first !! "pin_cfg[0].lvl" = Some BMI323_INT_ACTIVE_HIGH /\
    second !! "pin_cfg[0].output_en" = Some BMI323_INT_OUTPUT_ENABLE /\
    second !! "pin_cfg[0].lvl" = Some BMI323_INT_ACTIVE_HIGH /\
    second !! "pin_cfg[1].output_en" = Some BMI323_INT_OUTPUT_ENABLE /\
    second !! "pin_cfg[1].lvl" = Some BMI323_INT_ACTIVE_HIGH /\
    first !! "pin_cfg[1].output_en" = read !! "pin_cfg[1].output_en" /\
    first !! "pin_cfg[1].lvl" = read !! "pin_cfg[1].lvl" /\
    forall f, ~ In f assigned_pin_members ->
      first !! f = read !! f /\ second !! f = read !! f.
Proof.
  intros Hi read. exists (int_cfg_int1 e), (int_cfg_int2 e).
  split.
  - rewrite (main_run e ins Hi). cbn zeta. cbn [trace].
    rewrite !pin_configs_written_app, pin_configs_written_config.
    rewrite (pin_configs_written_loop _
               (acquisition_loop_events ins (loop_entry e (r_map_interrupt e)))).
    destruct (outcome (acquisition_loop ins _)); reflexivity.
  - unfold int_cfg_int2, int_cfg_int1. fold read.
    do 10 (split;
           [repeat first
              [ rewrite lookup_insert_eq; reflexivity
              | rewrite lookup_insert_ne by discriminate
              | reflexivity ]|]).
    intros f Hf.
    split; rewrite !lookup_insert_ne; try reflexivity;
      intros <-; apply Hf; cbn; tauto.
Qed.

End PinConfig.

Lemma pin_config_written_twice_witness :
  exists first second,
    pin_configs_written (trace (@main vendor_headers setup_ok five_motions))
    = [first; second] /\
    first !! "pin_type" = Some 1 /\ second !! "pin_type" = Some 2.
Proof.
  destruct (@pin_config_written_twice vendor_headers setup_ok five_motions eq_refl)
    as (first & second & Hw & H1 & H2 & _).
  exists first, second. split; [exact Hw|]. split; [exact H1 | exact H2].
Defined.


Lemma comm_closed_once_on_return_witness :
  code (r_init setup_ok) = @BMI323_OK vendor_headers /\
  occurrences is_attach (trace (@main vendor_headers setup_ok five_motions)) = 2%nat /\
  occurrences is_close_comm (trace (@main vendor_headers setup_ok five_motions))
  = 1%nat.
Proof.
  split; [reflexivity|].
  destruct (@comm_closed_once_on_return vendor_headers setup_ok five_motions eq_refl)
    as (Hattach & _ & Hdone).
  split; [exact Hattach|].
  exact (proj1 (proj2 (Hdone 0 eq_refl))).
Defined.
